(** * aws-app: the infrastructure stack and the backend handler

    A shallow embedding of [aws-infra/lib/aws-infra-stack.ts] (the
    [AwsInfraStack] constructor), of [aws-infra/bin/aws-infra.ts] (the
    entry point) and of the backend's HTTP handler.

    The constructor is a straight-line sequence of construct instantiations
    and method calls against the construct library.  It is embedded as a
    computation in a state-and-exception monad over the resource graph: every
    [new X(this, id, props)] becomes [new_X id props], every mutating method
    call becomes an operation that emits a node of the graph, and a thrown
    exception discards the graph built so far. *)

From Stdlib Require Import ZArith List String Ascii Bool Lia.
Import ListNotations.
Local Open Scope string_scope.
Local Open Scope Z_scope.

Set Implicit Arguments.
Set Warnings "-register-all".

(** ** Logical names and results *)

Definition LogicalId := string.

(** What a construction-time failure reports: the offending entity and the
    violated invariant. *)
Record ConstructError := ValidationError {
  offendingEntity : LogicalId;
  violatedInvariant : string
}.

Inductive Result (A : Type) : Type :=
| Ok (a : A)
| Throw (e : ConstructError).
Arguments Ok {A} a.
Arguments Throw {A} e.

(** ** [aws-cdk-lib] core *)

Inductive RemovalPolicy := DESTROY | RETAIN | SNAPSHOT.

Inductive Duration := days (n : Z) | minutes (n : Z).

Record Environment := {
  account : option string;
  region : option string
}.

Record StackProps := { env : option Environment }.

(** ** [aws-ec2]: addresses, subnets, peers and ports *)

Module ec2.

Inductive SubnetType := PUBLIC | PRIVATE_WITH_EGRESS | PRIVATE_ISOLATED.

Definition SubnetType_eqb (a b : SubnetType) : bool :=
  match a, b with
  | PUBLIC, PUBLIC => true
  | PRIVATE_WITH_EGRESS, PRIVATE_WITH_EGRESS => true
  | PRIVATE_ISOLATED, PRIVATE_ISOLATED => true
  | _, _ => false
  end.

Definition isPrivate (t : SubnetType) : bool :=
  match t with PUBLIC => false | _ => true end.

Record SubnetConfiguration := {
  name : string;
  subnetType : SubnetType;
  cidrMask : Z
}.

Record VpcProps := {
  maxAzs : Z;
  natGateways : Z;
  subnetConfiguration : list SubnetConfiguration
}.

(** An IPv4 address is a 32-bit number; a block is a network address and a
    prefix length. *)
Definition ipv4 (a b c d : Z) : Z :=
  Z.lor (Z.shiftl a 24) (Z.lor (Z.shiftl b 16) (Z.lor (Z.shiftl c 8) d)).

Record CidrBlock := {
  networkAddress : Z;
  mask : Z
}.

Definition networkSize (m : Z) : Z := 2 ^ (32 - m).
Definition minAddress (c : CidrBlock) : Z := networkAddress c.
Definition maxAddress (c : CidrBlock) : Z :=
  networkAddress c + networkSize (mask c) - 1.

Definition containsIp (c : CidrBlock) (a : Z) : bool :=
  (minAddress c <=? a) && (a <=? maxAddress c).

Definition overlaps (c1 c2 : CidrBlock) : Prop :=
  exists a, containsIp c1 a = true /\ containsIp c2 a = true.

Record Subnet := {
  subnetGroupName : string;
  subnetKind : SubnetType;
  availabilityZone : nat;
  ipv4CidrBlock : CidrBlock
}.

Record Vpc := {
  vpcId : LogicalId;
  vpcCidrBlock : CidrBlock;
  vpcNatGateways : Z;
  availabilityZones : list nat;
  subnets : list Subnet
}.

Definition subnetsOfType (t : SubnetType) (v : Vpc) : list Subnet :=
  filter (fun s => SubnetType_eqb (subnetKind s) t) (subnets v).

Definition publicSubnets (v : Vpc) : list Subnet := subnetsOfType PUBLIC v.
Definition privateSubnets (v : Vpc) : list Subnet :=
  subnetsOfType PRIVATE_WITH_EGRESS v.

Record SubnetSelection := { selectedType : SubnetType }.

(** The source of a rule: an address range, or another construct that has
    connections of its own (a service, a database). *)
Inductive Peer :=
| Ipv4Peer (range : CidrBlock)
| ConnectablePeer (construct : LogicalId).

Definition anyIpv4 : Peer :=
  Ipv4Peer {| networkAddress := ipv4 0 0 0 0; mask := 0 |}.

Inductive Port :=
| tcp (port : Z)
| allTraffic.

Definition Port_admits (p : Port) (n : Z) : bool :=
  match p with
  | tcp q => q =? n
  | allTraffic => true
  end.

Definition Peer_admitsIp (p : Peer) (a : Z) : bool :=
  match p with
  | Ipv4Peer r => containsIp r a
  | ConnectablePeer _ => false
  end.

Inductive Direction := Ingress | Egress.

Record SecurityRule := {
  ruleTarget : LogicalId;
  ruleDirection : Direction;
  rulePeer : Peer;
  rulePort : Port;
  ruleDescription : string
}.

Record SecurityGroupProps := {
  vpc : Vpc;
  description : string;
  allowAllOutbound : bool
}.

Record SecurityGroup := {
  securityGroupId : LogicalId;
  securityGroupProps : SecurityGroupProps
}.

Inductive InstanceClass := T3.
Inductive InstanceSize := MICRO.
Inductive InstanceType := InstanceType_of (c : InstanceClass) (s : InstanceSize).

End ec2.

(** ** JSON values, as [JSON.stringify] and [res.json] see them *)

Inductive JsonValue :=
| JString (s : string)
| JObject (fields : list (string * JsonValue)).

Definition doubleQuote : string := String (ascii_of_nat 34) EmptyString.
Definition backslash : string := String (ascii_of_nat 92) EmptyString.

(** Escaping of the two characters that cannot stand for themselves inside a
    quoted JSON string. *)
Fixpoint escapeString (s : string) : string :=
  match s with
  | EmptyString => EmptyString
  | String c rest =>
      if (nat_of_ascii c =? 34)%nat then backslash ++ doubleQuote ++ escapeString rest
      else if (nat_of_ascii c =? 92)%nat then backslash ++ backslash ++ escapeString rest
      else String c (escapeString rest)
  end.

Definition quoteString (s : string) : string :=
  doubleQuote ++ escapeString s ++ doubleQuote.

Fixpoint JSON_stringify (v : JsonValue) : string :=
  match v with
  | JString s => quoteString s
  | JObject fields =>
      let fix members (fs : list (string * JsonValue)) : string :=
        match fs with
        | [] => ""
        | [(k, x)] => quoteString k ++ ":" ++ JSON_stringify x
        | (k, x) :: rest => quoteString k ++ ":" ++ JSON_stringify x ++ "," ++ members rest
        end in
      "{" ++ members fields ++ "}"
  end.

(** ** [aws-secretsmanager] *)

Module secretsManager.

Record SecretStringGenerator := {
  secretStringTemplate : string;
  generateStringKey : string;
  excludePunctuation : bool
}.

Record SecretProps := { generateSecretString : SecretStringGenerator }.

Record Secret := {
  secretId : LogicalId;
  secretProps : SecretProps
}.

End secretsManager.

(** ** [aws-logs] *)

Module logs.

Inductive RetentionDays := ONE_WEEK.

Record LogGroupProps := {
  logGroupName : string;
  retention : RetentionDays;
  removalPolicy : RemovalPolicy
}.

Record LogGroup := {
  logGroupId : LogicalId;
  logGroupProps : LogGroupProps
}.

End logs.

(** ** [aws-rds] *)

Module rds.

Inductive PostgresEngineVersion := VER_15_12.

Inductive DatabaseInstanceEngine := postgres (version : PostgresEngineVersion).

(** The login of the instance is a reference to a secret, never its content. *)
Inductive Credentials := CredentialsFromSecret (secret : LogicalId).

Definition fromSecret (s : secretsManager.Secret) : Credentials :=
  CredentialsFromSecret (secretsManager.secretId s).

Record DatabaseInstanceProps := {
  engine : DatabaseInstanceEngine;
  instanceType : ec2.InstanceType;
  vpc : ec2.Vpc;
  vpcSubnets : ec2.SubnetSelection;
  credentials : Credentials;
  allocatedStorage : Z;
  maxAllocatedStorage : Z;
  databaseName : string;
  multiAz : bool;
  publiclyAccessible : bool;
  removalPolicy : RemovalPolicy;
  deleteAutomatedBackups : bool;
  backupRetention : Duration
}.

Record DatabaseInstance := {
  instanceId : LogicalId;
  instanceProps : DatabaseInstanceProps;
  instanceSubnets : list ec2.Subnet;
  dbInstanceEndpointAddress : string;
  dbInstanceEndpointPort : string
}.

End rds.

(** ** [aws-iam] *)

Module iam.

Inductive ManagedPolicy := fromAwsManagedPolicyName (managedPolicyName : string).

Definition ManagedPolicy_eqb (p q : ManagedPolicy) : bool :=
  match p, q with
  | fromAwsManagedPolicyName a, fromAwsManagedPolicyName b => String.eqb a b
  end.

Record Role := { roleId : LogicalId }.

End iam.

(** ** [aws-ecs] *)

Module ecs.

Record ClusterProps := { vpc : ec2.Vpc }.

Record Cluster := {
  clusterId : LogicalId;
  clusterProps : ClusterProps
}.

Inductive ContainerImage := fromRegistry (imageName : string).

(** A secret binding of a container: which secret, which field of it. *)
Inductive Secret := SecretFromSecretsManager (secret : LogicalId) (field : string).

Definition fromSecretsManager (s : secretsManager.Secret) (field : string) : Secret :=
  SecretFromSecretsManager (secretsManager.secretId s) field.

Record AwsLogDriverProps := {
  streamPrefix : string;
  logGroup : logs.LogGroup
}.

Inductive LogDriver := awsLogs (props : AwsLogDriverProps).

Record FargateTaskDefinitionProps := {
  cpu : Z;
  memoryLimitMiB : Z
}.

Record FargateTaskDefinition := {
  taskDefinitionId : LogicalId;
  taskDefinitionProps : FargateTaskDefinitionProps
}.

Record ContainerDefinitionOptions := {
  image : ContainerImage;
  logging : LogDriver
}.

(** A container of a task definition, with everything either way of adding
    one can set. *)
Record ContainerDefinition := {
  containerTaskDefinition : LogicalId;
  containerName : string;
  containerImage : ContainerImage;
  containerPort : option Z;
  containerEnvironment : list (string * string);
  containerSecrets : list (string * Secret);
  containerLogging : LogDriver
}.

Record FargateServiceProps := {
  cluster : Cluster;
  taskDefinition : FargateTaskDefinition;
  desiredCount : Z;
  assignPublicIp : bool;
  vpcSubnets : ec2.SubnetSelection;
  securityGroups : list ec2.SecurityGroup
}.

(** A service of the cluster.  The fields that only the standalone way of
    building a service sets are optional; [serviceEntryPoint] names the load
    balancer in front of a load-balanced service. *)
Record FargateService := {
  serviceId : LogicalId;
  serviceCluster : LogicalId;
  serviceTaskDefinition : LogicalId;
  serviceDesiredCount : Z;
  serviceAssignPublicIp : option bool;
  servicePlacement : option (list ec2.Subnet);
  serviceSecurityGroups : list LogicalId;
  serviceEntryPoint : option LogicalId
}.

End ecs.

(** ** [aws-elasticloadbalancingv2] and [aws-ecs-patterns] *)

Module elbv2.

Record ApplicationLoadBalancer := {
  loadBalancerId : LogicalId;
  loadBalancerArn : string;
  internetFacing : bool;
  targetService : LogicalId;
  targetPort : Z
}.

End elbv2.

Module ecsPatterns.

Record ApplicationLoadBalancedTaskImageOptions := {
  image : ecs.ContainerImage;
  containerPort : Z;
  environment : list (string * string);
  secrets : list (string * ecs.Secret);
  logDriver : ecs.LogDriver
}.

Record ApplicationLoadBalancedFargateServiceProps := {
  cluster : ecs.Cluster;
  desiredCount : Z;
  cpu : Z;
  memoryLimitMiB : Z;
  publicLoadBalancer : bool;
  taskImageOptions : ApplicationLoadBalancedTaskImageOptions
}.

Record ApplicationLoadBalancedFargateService := {
  service : ecs.FargateService;
  loadBalancer : elbv2.ApplicationLoadBalancer;
  taskDefinition : ecs.FargateTaskDefinition
}.

End ecsPatterns.

(** ** [aws-wafv2] *)

Module wafv2.

Inductive DefaultAction := allow | block.

Inductive OverrideAction := none | count.

Record VisibilityConfig := {
  cloudWatchMetricsEnabled : bool;
  metricName : string;
  sampledRequestsEnabled : bool
}.

Record ManagedRuleGroupStatement := {
  vendorName : string;
  name : string
}.

Record Rule := {
  ruleName : string;
  priority : Z;
  overrideAction : OverrideAction;
  statement : ManagedRuleGroupStatement;
  ruleVisibilityConfig : VisibilityConfig
}.

Record CfnWebACLProps := {
  defaultAction : DefaultAction;
  scope : string;
  visibilityConfig : VisibilityConfig;
  rules : list Rule
}.

Record CfnWebACL := {
  webAclId : LogicalId;
  attrArn : string;
  webAclProps : CfnWebACLProps
}.

Record CfnWebACLAssociationProps := {
  resourceArn : string;
  webAclArn : string
}.

Record CfnWebACLAssociation := {
  associationId : LogicalId;
  associationProps : CfnWebACLAssociationProps
}.

End wafv2.

(** ** [aws-sns] and [aws-sns-subscriptions] *)

Module sns.

Record TopicProps := { displayName : string }.

Record Topic := {
  topicId : LogicalId;
  topicArn : string;
  topicProps : TopicProps
}.

End sns.

Module subs.

Inductive Subscription := EmailSubscription (emailAddress : string).

End subs.

(** ** [aws-cloudwatch] *)

Module cw.

Inductive ComparisonOperator :=
| GREATER_THAN_OR_EQUAL_TO_THRESHOLD
| GREATER_THAN_THRESHOLD
| LESS_THAN_THRESHOLD
| LESS_THAN_OR_EQUAL_TO_THRESHOLD.

Record MetricOptions := { period : Duration }.

Record Metric := {
  metricSource : LogicalId;
  metricName : string;
  metricPeriod : Duration
}.

Record AlarmProps := {
  metric : Metric;
  threshold : Z;
  evaluationPeriods : Z;
  datapointsToAlarm : Z;
  alarmDescription : string;
  comparisonOperator : ComparisonOperator;
  alarmName : string
}.

Record Alarm := {
  alarmId : LogicalId;
  alarmProps : AlarmProps
}.

Record AlarmActionConfig := { alarmActionArn : string }.

End cw.

(** ** The resource graph *)

(** One node per resource or relation the constructor defines, in the order
    of definition. *)
Inductive Node :=
| StackNode (id : LogicalId) (props : StackProps)
| NetworkNode (network : ec2.Vpc)
| SubdivisionNode (network : LogicalId) (subnet : ec2.Subnet)
| CredentialNode (secret : secretsManager.Secret)
| DataStoreNode (instance : rds.DatabaseInstance)
| ClusterNode (cluster : ecs.Cluster)
| LogSinkNode (logGroup : logs.LogGroup)
| TaskDefinitionNode (taskDefinition : ecs.FargateTaskDefinition)
| ContainerNode (container : ecs.ContainerDefinition)
| ExecutionRoleNode (role : iam.Role)
| WorkloadNode (service : ecs.FargateService)
| PublicEntryPointNode (loadBalancer : elbv2.ApplicationLoadBalancer)
| GrantNode (role : LogicalId) (policy : iam.ManagedPolicy)
| SecurityGroupNode (group : ec2.SecurityGroup)
| SecurityRuleNode (rule : ec2.SecurityRule)
| FirewallPolicyNode (acl : wafv2.CfnWebACL)
| FirewallBindingNode (association : wafv2.CfnWebACLAssociation)
| NotificationTargetNode (topic : sns.Topic)
| SubscriptionNode (topic : LogicalId) (subscription : subs.Subscription)
| AlarmNode (alarm : cw.Alarm)
| AlarmActionNode (alarm : LogicalId) (action : cw.AlarmActionConfig).

Definition Graph := list Node.

(** ** The construction monad

    A constructor step reads and extends the graph, or throws.  A throw
    carries no graph: what was built before it is lost with it. *)

Definition Build (A : Type) : Type := Graph -> Result (A * Graph).

Definition ret {A} (a : A) : Build A := fun g => Ok (a, g).

Definition bind {A B} (c : Build A) (k : A -> Build B) : Build B :=
  fun g =>
    match c g with
    | Ok (a, g') => k a g'
    | Throw e => Throw e
    end.

Definition throw {A} (e : ConstructError) : Build A := fun _ => Throw e.

Definition emit (n : Node) : Build unit := fun g => Ok (tt, (g ++ [n])%list).

Definition emitAll (ns : list Node) : Build unit := fun g => Ok (tt, (g ++ ns)%list).

Definition inspect : Build Graph := fun g => Ok (g, g).

Declare Scope build_scope.
Delimit Scope build_scope with build.
Notation "x <- c ;; k" := (bind c (fun x => k))
  (at level 61, c at next level, right associativity) : build_scope.
Notation "c ;; k" := (bind c (fun _ => k))
  (at level 61, right associativity) : build_scope.
Local Open Scope build_scope.

(** An attribute of a resource that only exists once the resource is
    deployed (an endpoint, an ARN): the constructor handles it as a string
    that names the resource and the attribute. *)
Definition attribute (id : LogicalId) (attr : string) : string :=
  "${" ++ id ++ "." ++ attr ++ "}".

(** ** The construct library, as the constructor uses it

    The construct library is not part of the sources; the constructor only
    calls it.  A construct is modelled by what the constructor relies on: it
    records its properties as a node of the graph and returns a handle that
    later steps read.  Where the spec states a contract for an operation of
    the library, the model follows that contract and says so. *)

(** *** Network *)

Definition defaultVpcCidr : ec2.CidrBlock :=
  {| ec2.networkAddress := ec2.ipv4 10 0 0 0; ec2.mask := 16 |}.

(** The first address at or after [next] that is a multiple of [size]. *)
Definition alignUp (next size : Z) : Z :=
  if next mod size =? 0 then next else next + (size - next mod size).

(** The next free block of prefix length [mask] inside [range], and the
    address after it; nothing when the range is used up. *)
Definition addSubnet (range : ec2.CidrBlock) (next mask : Z)
  : option (ec2.CidrBlock * Z) :=
  let size := ec2.networkSize mask in
  let start := alignUp next size in
  let block := {| ec2.networkAddress := start; ec2.mask := mask |} in
  if ec2.maxAddress block <=? ec2.maxAddress range
  then Some (block, start + size)
  else None.

(** One subnet of the group [cfg] in each availability zone. *)
Fixpoint allocateGroup (range : ec2.CidrBlock) (cfg : ec2.SubnetConfiguration)
    (azs : list nat) (next : Z) : option (list ec2.Subnet * Z) :=
  match azs with
  | [] => Some ([], next)
  | az :: rest =>
      match addSubnet range next (ec2.cidrMask cfg) with
      | None => None
      | Some (block, next') =>
          match allocateGroup range cfg rest next' with
          | None => None
          | Some (more, next'') =>
              Some ({| ec2.subnetGroupName := ec2.name cfg;
                       ec2.subnetKind := ec2.subnetType cfg;
                       ec2.availabilityZone := az;
                       ec2.ipv4CidrBlock := block |} :: more, next'')
          end
      end
  end.

Fixpoint allocateSubnets (range : ec2.CidrBlock)
    (cfgs : list ec2.SubnetConfiguration) (azs : list nat) (next : Z)
  : option (list ec2.Subnet * Z) :=
  match cfgs with
  | [] => Some ([], next)
  | cfg :: rest =>
      match allocateGroup range cfg azs next with
      | None => None
      | Some (group, next') =>
          match allocateSubnets range rest azs next' with
          | None => None
          | Some (more, next'') => Some ((group ++ more)%list, next'')
          end
      end
  end.

Definition noAvailabilityZone (id : LogicalId) : ConstructError :=
  ValidationError id "availabilityZoneCount must be at least 1".

(** Modelled from the spec: the expansion of a network's properties into
    subnets, which the construct library does ([ec2.Vpc]; the library is not
    part of the sources, only this call of it is).  Following the contract of
    [BuildNetwork]: it fails when fewer than one availability zone is
    requested, before anything is emitted; otherwise every subnet group of
    the configuration gets one subnet per availability zone, the blocks taken
    one after the other from the network's address range, each of the prefix
    length its group asks for.  The address range is the library's documented
    default, 10.0.0.0/16. *)
Definition new_Vpc (id : LogicalId) (props : ec2.VpcProps) : Build ec2.Vpc :=
  if ec2.maxAzs props <? 1
  then throw (noAvailabilityZone id)
  else
    let azs := seq 0 (Z.to_nat (ec2.maxAzs props)) in
    match allocateSubnets defaultVpcCidr (ec2.subnetConfiguration props) azs
            (ec2.minAddress defaultVpcCidr) with
    | None => throw (ValidationError id "the subnets exceed the address range of the network")
    | Some (allocated, _) =>
        let network := {| ec2.vpcId := id;
                          ec2.vpcCidrBlock := defaultVpcCidr;
                          ec2.vpcNatGateways := ec2.natGateways props;
                          ec2.availabilityZones := azs;
                          ec2.subnets := allocated |} in
        emit (NetworkNode network) ;;
        emitAll (map (SubdivisionNode id) allocated) ;;
        ret network
    end.

Definition selectSubnets (network : ec2.Vpc) (selection : ec2.SubnetSelection)
  : list ec2.Subnet :=
  ec2.subnetsOfType (ec2.selectedType selection) network.

Definition new_SecurityGroup (id : LogicalId) (props : ec2.SecurityGroupProps)
  : Build ec2.SecurityGroup :=
  let group := {| ec2.securityGroupId := id; ec2.securityGroupProps := props |} in
  emit (SecurityGroupNode group) ;;
  (if ec2.allowAllOutbound props
   then emit (SecurityRuleNode
                {| ec2.ruleTarget := id;
                   ec2.ruleDirection := ec2.Egress;
                   ec2.rulePeer := ec2.anyIpv4;
                   ec2.rulePort := ec2.allTraffic;
                   ec2.ruleDescription := "Allow all outbound traffic by default" |})
   else ret tt) ;;
  ret group.

Definition addIngressRule (group : ec2.SecurityGroup) (peer : ec2.Peer)
    (port : ec2.Port) (description : string) : Build unit :=
  emit (SecurityRuleNode
          {| ec2.ruleTarget := ec2.securityGroupId group;
             ec2.ruleDirection := ec2.Ingress;
             ec2.rulePeer := peer;
             ec2.rulePort := port;
             ec2.ruleDescription := description |}).

(** *** Secret and database *)

Definition new_Secret (id : LogicalId) (props : secretsManager.SecretProps)
  : Build secretsManager.Secret :=
  let secret := {| secretsManager.secretId := id;
                   secretsManager.secretProps := props |} in
  emit (CredentialNode secret) ;;
  ret secret.

(** The instance is placed in the subnets of its network that the selection
    names; a selection that names none fails the construction before the
    instance is defined. *)
Definition new_DatabaseInstance (id : LogicalId)
    (props : rds.DatabaseInstanceProps) : Build rds.DatabaseInstance :=
  match selectSubnets (rds.vpc props) (rds.vpcSubnets props) with
  | [] => throw (ValidationError id "the placement resolves to no subnet of the network")
  | placement =>
      let instance := {| rds.instanceId := id;
                         rds.instanceProps := props;
                         rds.instanceSubnets := placement;
                         rds.dbInstanceEndpointAddress := attribute id "Endpoint.Address";
                         rds.dbInstanceEndpointPort := attribute id "Endpoint.Port" |} in
      emit (DataStoreNode instance) ;;
      ret instance
  end.

(** What can be the other side of a connection rule. *)
Record Connections := { connectionsOf : LogicalId }.

Definition rds_connections (instance : rds.DatabaseInstance) : Connections :=
  {| connectionsOf := rds.instanceId instance |}.

Definition ecs_connectable (service : ecs.FargateService) : ec2.Peer :=
  ec2.ConnectablePeer (ecs.serviceId service).

Definition allowFrom (target : Connections) (other : ec2.Peer) (port : ec2.Port)
    (description : string) : Build unit :=
  emit (SecurityRuleNode
          {| ec2.ruleTarget := connectionsOf target;
             ec2.ruleDirection := ec2.Ingress;
             ec2.rulePeer := other;
             ec2.rulePort := port;
             ec2.ruleDescription := description |}).

Definition rds_metricCPUUtilization (instance : rds.DatabaseInstance)
    (options : cw.MetricOptions) : cw.Metric :=
  {| cw.metricSource := rds.instanceId instance;
     cw.metricName := "CPUUtilization";
     cw.metricPeriod := cw.period options |}.

(** *** Cluster, log groups and workloads *)

Definition new_Cluster (id : LogicalId) (props : ecs.ClusterProps)
  : Build ecs.Cluster :=
  let cluster := {| ecs.clusterId := id; ecs.clusterProps := props |} in
  emit (ClusterNode cluster) ;;
  ret cluster.

Definition new_LogGroup (id : LogicalId) (props : logs.LogGroupProps)
  : Build logs.LogGroup :=
  let logGroup := {| logs.logGroupId := id; logs.logGroupProps := props |} in
  emit (LogSinkNode logGroup) ;;
  ret logGroup.

Definition nonPositiveSize (id : LogicalId) : ConstructError :=
  ValidationError id "desired task count, CPU and memory must be positive".

Definition positiveSizes
    (props : ecsPatterns.ApplicationLoadBalancedFargateServiceProps) : bool :=
  (0 <? ecsPatterns.desiredCount props)
  && (0 <? ecsPatterns.cpu props)
  && (0 <? ecsPatterns.memoryLimitMiB props).

(** Modelled from the spec: the load-balanced way of adding a workload, which
    the construct library does ([ecsPatterns.ApplicationLoadBalancedFargateService]).
    Following the contract of [AddLoadBalancedWorkload]: desired task count,
    CPU and memory must be positive, or the construction fails and nothing is
    defined; otherwise the task definition with its container, the load
    balancer and the service it targets are defined together, in one step,
    each naming the other. *)
Definition new_ApplicationLoadBalancedFargateService (id : LogicalId)
    (props : ecsPatterns.ApplicationLoadBalancedFargateServiceProps)
  : Build ecsPatterns.ApplicationLoadBalancedFargateService :=
  if negb (positiveSizes props) then throw (nonPositiveSize id) else
  let options := ecsPatterns.taskImageOptions props in
  let taskDefinition :=
    {| ecs.taskDefinitionId := id ++ "/TaskDef";
       ecs.taskDefinitionProps :=
         {| ecs.cpu := ecsPatterns.cpu props;
            ecs.memoryLimitMiB := ecsPatterns.memoryLimitMiB props |} |} in
  let container :=
    {| ecs.containerTaskDefinition := ecs.taskDefinitionId taskDefinition;
       ecs.containerName := "web";
       ecs.containerImage := ecsPatterns.image options;
       ecs.containerPort := Some (ecsPatterns.containerPort options);
       ecs.containerEnvironment := ecsPatterns.environment options;
       ecs.containerSecrets := ecsPatterns.secrets options;
       ecs.containerLogging := ecsPatterns.logDriver options |} in
  let service :=
    {| ecs.serviceId := id ++ "/Service";
       ecs.serviceCluster := ecs.clusterId (ecsPatterns.cluster props);
       ecs.serviceTaskDefinition := ecs.taskDefinitionId taskDefinition;
       ecs.serviceDesiredCount := ecsPatterns.desiredCount props;
       ecs.serviceAssignPublicIp := None;
       ecs.servicePlacement := None;
       ecs.serviceSecurityGroups := [];
       ecs.serviceEntryPoint := Some (id ++ "/LB") |} in
  let loadBalancer :=
    {| elbv2.loadBalancerId := id ++ "/LB";
       elbv2.loadBalancerArn := attribute (id ++ "/LB") "Arn";
       elbv2.internetFacing := ecsPatterns.publicLoadBalancer props;
       elbv2.targetService := ecs.serviceId service;
       elbv2.targetPort := ecsPatterns.containerPort options |} in
  emitAll [TaskDefinitionNode taskDefinition;
           ContainerNode container;
           PublicEntryPointNode loadBalancer;
           WorkloadNode service] ;;
  ret {| ecsPatterns.service := service;
         ecsPatterns.loadBalancer := loadBalancer;
         ecsPatterns.taskDefinition := taskDefinition |}.

Definition new_FargateTaskDefinition (id : LogicalId)
    (props : ecs.FargateTaskDefinitionProps) : Build ecs.FargateTaskDefinition :=
  let taskDefinition := {| ecs.taskDefinitionId := id;
                           ecs.taskDefinitionProps := props |} in
  emit (TaskDefinitionNode taskDefinition) ;;
  ret taskDefinition.

Definition addContainer (taskDefinition : ecs.FargateTaskDefinition)
    (id : string) (options : ecs.ContainerDefinitionOptions) : Build unit :=
  emit (ContainerNode
          {| ecs.containerTaskDefinition := ecs.taskDefinitionId taskDefinition;
             ecs.containerName := id;
             ecs.containerImage := ecs.image options;
             ecs.containerPort := None;
             ecs.containerEnvironment := [];
             ecs.containerSecrets := [];
             ecs.containerLogging := ecs.logging options |}).

(** The standalone way of adding a workload: the service is placed in the
    subnets of the cluster's network that the selection names, and no load
    balancer is defined for it. *)
Definition new_FargateService (id : LogicalId) (props : ecs.FargateServiceProps)
  : Build ecs.FargateService :=
  match selectSubnets (ecs.vpc (ecs.clusterProps (ecs.cluster props)))
          (ecs.vpcSubnets props) with
  | [] => throw (ValidationError id "the placement resolves to no subnet of the network")
  | placement =>
      let service :=
        {| ecs.serviceId := id;
           ecs.serviceCluster := ecs.clusterId (ecs.cluster props);
           ecs.serviceTaskDefinition := ecs.taskDefinitionId (ecs.taskDefinition props);
           ecs.serviceDesiredCount := ecs.desiredCount props;
           ecs.serviceAssignPublicIp := Some (ecs.assignPublicIp props);
           ecs.servicePlacement := Some placement;
           ecs.serviceSecurityGroups :=
             map ec2.securityGroupId (ecs.securityGroups props);
           ecs.serviceEntryPoint := None |} in
      emit (WorkloadNode service) ;;
      ret service
  end.

Definition ecs_metricCpuUtilization (service : ecs.FargateService)
    (options : cw.MetricOptions) : cw.Metric :=
  {| cw.metricSource := ecs.serviceId service;
     cw.metricName := "CPUUtilization";
     cw.metricPeriod := cw.period options |}.

(** *** Execution identities and their grants *)

Definition isRole (role : iam.Role) (n : Node) : bool :=
  match n with
  | ExecutionRoleNode r => String.eqb (iam.roleId r) (iam.roleId role)
  | _ => false
  end.

Definition isGrant (role : LogicalId) (policy : iam.ManagedPolicy) (n : Node) : bool :=
  match n with
  | GrantNode r p => String.eqb r role && iam.ManagedPolicy_eqb p policy
  | _ => false
  end.

(** The execution role of a task definition: defined at the first request,
    the same role at every later one. *)
Definition obtainExecutionRole (taskDefinition : ecs.FargateTaskDefinition)
  : Build iam.Role :=
  let role := {| iam.roleId := ecs.taskDefinitionId taskDefinition ++ "/ExecutionRole" |} in
  g <- inspect ;;
  (if existsb (isRole role) g then ret tt else emit (ExecutionRoleNode role)) ;;
  ret role.

(** Modelled from the spec: attaching a managed policy to a role, which the
    construct library does ([iam.Role.addManagedPolicy]).  Following the
    contract of [GrantImagePull] and its design note: the grant is looked up
    before it is added, so a policy the role already has is not added again. *)
Definition addManagedPolicy (role : iam.Role) (policy : iam.ManagedPolicy)
  : Build unit :=
  g <- inspect ;;
  if existsb (isGrant (iam.roleId role) policy) g
  then ret tt
  else emit (GrantNode (iam.roleId role) policy).

(** *** Firewall *)

Definition new_CfnWebACL (id : LogicalId) (props : wafv2.CfnWebACLProps)
  : Build wafv2.CfnWebACL :=
  let acl := {| wafv2.webAclId := id;
                wafv2.attrArn := attribute id "Arn";
                wafv2.webAclProps := props |} in
  emit (FirewallPolicyNode acl) ;;
  ret acl.

Definition bindsTo (resourceArn : string) (n : Node) : bool :=
  match n with
  | FirewallBindingNode a =>
      String.eqb (wafv2.resourceArn (wafv2.associationProps a)) resourceArn
  | _ => false
  end.

Definition alreadyBound (id : LogicalId) : ConstructError :=
  ValidationError id "the entry point already has a firewall policy bound".

(** Modelled from the spec: binding a firewall policy to an entry point,
    which the construct library does ([wafv2.CfnWebACLAssociation]).
    Following the contract of [AttachFirewallPolicy]: it fails if the entry
    point already has a policy bound. *)
Definition new_CfnWebACLAssociation (id : LogicalId)
    (props : wafv2.CfnWebACLAssociationProps) : Build wafv2.CfnWebACLAssociation :=
  g <- inspect ;;
  if existsb (bindsTo (wafv2.resourceArn props)) g
  then throw (alreadyBound id)
  else
    let association := {| wafv2.associationId := id;
                          wafv2.associationProps := props |} in
    emit (FirewallBindingNode association) ;;
    ret association.

(** *** Notification and alarms *)

Definition new_Topic (id : LogicalId) (props : sns.TopicProps) : Build sns.Topic :=
  let topic := {| sns.topicId := id;
                  sns.topicArn := attribute id "TopicArn";
                  sns.topicProps := props |} in
  emit (NotificationTargetNode topic) ;;
  ret topic.

Definition addSubscription (topic : sns.Topic) (subscription : subs.Subscription)
  : Build unit :=
  emit (SubscriptionNode (sns.topicId topic) subscription).

Definition tooManyDatapoints (id : LogicalId) : ConstructError :=
  ValidationError id "datapointsToAlarm must be at most evaluationPeriods".

(** Modelled from the spec: the validation of an alarm's properties, which
    the construct library does ([cw.Alarm]).  Following the contract of
    [CreateAlarm]: [datapointsToAlarm] must be at most [evaluationPeriods],
    and a violation is an error of the construction. *)
Definition new_Alarm (id : LogicalId) (props : cw.AlarmProps) : Build cw.Alarm :=
  if cw.evaluationPeriods props <? cw.datapointsToAlarm props
  then throw (tooManyDatapoints id)
  else
    let alarm := {| cw.alarmId := id; cw.alarmProps := props |} in
    emit (AlarmNode alarm) ;;
    ret alarm.

Definition addAlarmAction (alarm : cw.Alarm) (action : cw.AlarmActionConfig)
  : Build unit :=
  emit (AlarmActionNode (cw.alarmId alarm) action).

(** ** The stack: [aws-infra/lib/aws-infra-stack.ts] *)

Record AwsInfraStack := {
  vpc : ec2.Vpc;
  ecsCluster : ecs.Cluster;
  database : rds.DatabaseInstance
}.

(** [taskDefinition.obtainExecutionRole().addManagedPolicy(
       iam.ManagedPolicy.fromAwsManagedPolicyName('AmazonEC2ContainerRegistryReadOnly'))],
    the statement the constructor makes once for each workload. *)
Definition GrantImagePull (taskDefinition : ecs.FargateTaskDefinition) : Build unit :=
  role <- obtainExecutionRole taskDefinition ;;
  addManagedPolicy role (iam.fromAwsManagedPolicyName "AmazonEC2ContainerRegistryReadOnly").

Definition AppVpcProps : ec2.VpcProps :=
  {| ec2.maxAzs := 2;
     ec2.natGateways := 1;
     ec2.subnetConfiguration :=
       [ {| ec2.name := "Public";
            ec2.subnetType := ec2.PUBLIC;
            ec2.cidrMask := 24 |};
         {| ec2.name := "Private";
            ec2.subnetType := ec2.PRIVATE_WITH_EGRESS;
            ec2.cidrMask := 24 |} ] |}.

Definition BackendWafAclProps : wafv2.CfnWebACLProps :=
  {| wafv2.defaultAction := wafv2.allow;
     wafv2.scope := "REGIONAL";
     wafv2.visibilityConfig :=
       {| wafv2.cloudWatchMetricsEnabled := true;
          wafv2.metricName := "BackendWafMetrics";
          wafv2.sampledRequestsEnabled := true |};
     wafv2.rules :=
       [ {| wafv2.ruleName := "AWS-AWSManagedRulesCommonRuleSet";
            wafv2.priority := 0;
            wafv2.overrideAction := wafv2.none;
            wafv2.statement :=
              {| wafv2.vendorName := "AWS";
                 wafv2.name := "AWSManagedRulesCommonRuleSet" |};
            wafv2.ruleVisibilityConfig :=
              {| wafv2.cloudWatchMetricsEnabled := true;
                 wafv2.metricName := "CommonRuleSet";
                 wafv2.sampledRequestsEnabled := true |} |} ] |}.

Definition new_AwsInfraStack (id : LogicalId) (props : StackProps)
  : Build AwsInfraStack :=
  emit (StackNode id props) ;;

  (* NETWORKING (VPC & Subnets) *)
  vpc <- new_Vpc "AppVpc" AppVpcProps ;;

  (* DATABASE (RDS + Secrets) *)
  dbCredentialsSecret <- new_Secret "DbCredentialsSecret"
    {| secretsManager.generateSecretString :=
         {| secretsManager.secretStringTemplate :=
              JSON_stringify (JObject [("username", JString "postgres")]);
            secretsManager.generateStringKey := "password";
            secretsManager.excludePunctuation := true |} |} ;;
  database <- new_DatabaseInstance "PostgresInstance"
    {| rds.engine := rds.postgres rds.VER_15_12;
       rds.instanceType := ec2.InstanceType_of ec2.T3 ec2.MICRO;
       rds.vpc := vpc;
       rds.vpcSubnets := {| ec2.selectedType := ec2.PRIVATE_WITH_EGRESS |};
       rds.credentials := rds.fromSecret dbCredentialsSecret;
       rds.allocatedStorage := 20;
       rds.maxAllocatedStorage := 100;
       rds.databaseName := "appdb";
       rds.multiAz := false;
       rds.publiclyAccessible := false;
       rds.removalPolicy := DESTROY;
       rds.deleteAutomatedBackups := true;
       rds.backupRetention := days 0 |} ;;

  (* ECS CLUSTER *)
  ecsCluster <- new_Cluster "AppCluster" {| ecs.vpc := vpc |} ;;

  (* LOG GROUPS (CloudWatch) *)
  backendLogGroup <- new_LogGroup "BackendLogGroup"
    {| logs.logGroupName := "/ecs/backend";
       logs.retention := logs.ONE_WEEK;
       logs.removalPolicy := DESTROY |} ;;
  frontendLogGroup <- new_LogGroup "FrontendLogGroup"
    {| logs.logGroupName := "/ecs/frontend";
       logs.retention := logs.ONE_WEEK;
       logs.removalPolicy := DESTROY |} ;;

  (* BACKEND (Fargate + ALB) *)
  backendService <- new_ApplicationLoadBalancedFargateService "BackendService"
    {| ecsPatterns.cluster := ecsCluster;
       ecsPatterns.desiredCount := 1;
       ecsPatterns.cpu := 256;
       ecsPatterns.memoryLimitMiB := 512;
       ecsPatterns.publicLoadBalancer := true;
       ecsPatterns.taskImageOptions :=
         {| ecsPatterns.image :=
              ecs.fromRegistry "904907794166.dkr.ecr.eu-north-1.amazonaws.com/backend";
            ecsPatterns.containerPort := 3000;
            ecsPatterns.environment :=
              [ ("DB_NAME", "appdb");
                ("DB_HOST", rds.dbInstanceEndpointAddress database);
                ("DB_PORT", rds.dbInstanceEndpointPort database) ];
            ecsPatterns.secrets :=
              [ ("DB_USER", ecs.fromSecretsManager dbCredentialsSecret "username");
                ("DB_PASSWORD", ecs.fromSecretsManager dbCredentialsSecret "password") ];
            ecsPatterns.logDriver :=
              ecs.awsLogs {| ecs.streamPrefix := "backend";
                             ecs.logGroup := backendLogGroup |} |} |} ;;
  GrantImagePull (ecsPatterns.taskDefinition backendService) ;;
  allowFrom (rds_connections database)
    (ecs_connectable (ecsPatterns.service backendService))
    (ec2.tcp 5432)
    "Allow backend ECS tasks to connect to PostgresSQL" ;;

  (* WEB ACL (WAF for ALB) *)
  wafAcl <- new_CfnWebACL "BackendWafAcl" BackendWafAclProps ;;
  new_CfnWebACLAssociation "WafAssociation"
    {| wafv2.resourceArn :=
         elbv2.loadBalancerArn (ecsPatterns.loadBalancer backendService);
       wafv2.webAclArn := wafv2.attrArn wafAcl |} ;;

  (* FRONTEND (Fargate Task) *)
  frontendSG <- new_SecurityGroup "FrontendSecurityGroup"
    {| ec2.vpc := vpc;
       ec2.description := "Allow HTTP access to frontend container";
       ec2.allowAllOutbound := true |} ;;
  addIngressRule frontendSG ec2.anyIpv4 (ec2.tcp 80) "Allow HTTP from public" ;;
  frontendTaskDef <- new_FargateTaskDefinition "FrontendTaskDef"
    {| ecs.cpu := 256; ecs.memoryLimitMiB := 512 |} ;;
  addContainer frontendTaskDef "FrontendContainer"
    {| ecs.image :=
         ecs.fromRegistry "904907794166.dkr.ecr.eu-north-1.amazonaws.com/frontend";
       ecs.logging :=
         ecs.awsLogs {| ecs.streamPrefix := "frontend";
                        ecs.logGroup := frontendLogGroup |} |} ;;
  new_FargateService "FrontendService"
    {| ecs.cluster := ecsCluster;
       ecs.taskDefinition := frontendTaskDef;
       ecs.desiredCount := 1;
       ecs.assignPublicIp := true;
       ecs.vpcSubnets := {| ec2.selectedType := ec2.PUBLIC |};
       ecs.securityGroups := [frontendSG] |} ;;
  GrantImagePull frontendTaskDef ;;

  (* MONITORING (CloudWatch + SNS) *)
  alarmTopic <- new_Topic "AlarmTopic" {| sns.displayName := "Infra Alarms Topic" |} ;;
  addSubscription alarmTopic (subs.EmailSubscription "serhii.slavita@icloud.com") ;;
  backendAlarm <- new_Alarm "BackendHighCpu"
    {| cw.metric :=
         ecs_metricCpuUtilization (ecsPatterns.service backendService)
           {| cw.period := minutes 1 |};
       cw.threshold := 70;
       cw.evaluationPeriods := 2;
       cw.datapointsToAlarm := 2;
       cw.alarmDescription := "CPU usage > 70% on backend";
       cw.comparisonOperator := cw.GREATER_THAN_THRESHOLD;
       cw.alarmName := "BackendHighCpu" |} ;;
  addAlarmAction backendAlarm {| cw.alarmActionArn := sns.topicArn alarmTopic |} ;;
  rdsCpuAlarm <- new_Alarm "RdsHighCpu"
    {| cw.metric := rds_metricCPUUtilization database {| cw.period := minutes 1 |};
       cw.threshold := 70;
       cw.evaluationPeriods := 2;
       cw.datapointsToAlarm := 2;
       cw.alarmDescription := "CPU usage > 70% on RDS";
       cw.comparisonOperator := cw.GREATER_THAN_THRESHOLD;
       cw.alarmName := "RdsHighCpu" |} ;;
  addAlarmAction rdsCpuAlarm {| cw.alarmActionArn := sns.topicArn alarmTopic |} ;;

  ret {| vpc := vpc; ecsCluster := ecsCluster; database := database |}.

(** ** The entry point: [aws-infra/bin/aws-infra.ts] *)

Definition ProcessEnv := string -> option string.

(** [a || b] on a value that is a string or undefined. *)
Definition orElse (a : option string) (b : string) : string :=
  match a with
  | None => b
  | Some EmptyString => b
  | Some s => s
  end.

(** A new app has no node; the stack is constructed in it.  The graph is
    handed on only if the constructor returns. *)
Definition aws_infra (processEnv : ProcessEnv) : Result (AwsInfraStack * Graph) :=
  new_AwsInfraStack "AwsInfraStack"
    {| env := Some {| account := processEnv "CDK_DEFAULT_ACCOUNT";
                      region := Some (orElse (processEnv "CDK_DEFAULT_REGION")
                                        "eu-central-1") |} |}
    [].

(** ** The backend: the handlers of its two routes *)

Module backend.

(** What [new Error(...)] and the database client's errors carry. *)
Record Error := {
  errorName : string;
  message : string
}.

(** A row maps column names to values; a query result has rows. *)
Definition Row := list (string * JsonValue).

Record QueryResult := { rows : list Row }.

(** The outcome of awaiting a promise. *)
Inductive Settled (A : Type) : Type :=
| Resolved (value : A)
| Rejected (reason : Error).
Arguments Resolved {A} value.
Arguments Rejected {A} reason.

Definition Client := string -> Settled QueryResult.

Inductive Body :=
| Json (value : JsonValue)
| Text (text : string).

Record Response := {
  status : Z;
  body : Body
}.

Fixpoint property (key : string) (object : Row) : option JsonValue :=
  match object with
  | [] => None
  | (k, v) :: rest => if String.eqb k key then Some v else property key rest
  end.

(** An object literal, as [res.json] serializes it: a property whose value is
    undefined is left out. *)
Definition objectLiteral (fields : list (string * option JsonValue)) : JsonValue :=
  JObject (flat_map (fun kv => match snd kv with
                               | Some v => [(fst kv, v)]
                               | None => []
                               end) fields).

(** The [try] block of [app.get('/api/hello')]: the query, then the first
    row's [now].  Reading a property of an undefined first row throws. *)
Definition tryHello (client : Client) : Settled Response :=
  match client "SELECT NOW()" with
  | Rejected err => Rejected err
  | Resolved result =>
      match rows result with
      | [] => Rejected {| errorName := "TypeError";
                          message := "Cannot read properties of undefined (reading 'now')" |}
      | row :: _ =>
          Resolved {| status := 200;
                      body := Json (objectLiteral
                                [ ("message", Some (JString "Hello from backend (Node.js)"));
                                  ("time", property "now" row) ]) |}
      end
  end.

Definition apiHello (client : Client) : Response :=
  match tryHello client with
  | Resolved response => response
  | Rejected err =>
      {| status := 500;
         body := Json (objectLiteral
                   [ ("error", Some (JString "Database error"));
                     ("detail", Some (JString (message err))) ]) |}
  end.

Definition root : Response :=
  {| status := 200; body := Text "Backend is running" |}.

End backend.

(** ** Reading the graph *)

Local Open Scope list_scope.

Definition networks (g : Graph) : list ec2.Vpc :=
  flat_map (fun n => match n with NetworkNode v => [v] | _ => [] end) g.

Definition subdivisions (g : Graph) : list ec2.Subnet :=
  flat_map (fun n => match n with SubdivisionNode _ s => [s] | _ => [] end) g.

Definition credentials (g : Graph) : list secretsManager.Secret :=
  flat_map (fun n => match n with CredentialNode s => [s] | _ => [] end) g.

Definition dataStores (g : Graph) : list rds.DatabaseInstance :=
  flat_map (fun n => match n with DataStoreNode d => [d] | _ => [] end) g.

Definition workloads (g : Graph) : list ecs.FargateService :=
  flat_map (fun n => match n with WorkloadNode w => [w] | _ => [] end) g.

Definition containers (g : Graph) : list ecs.ContainerDefinition :=
  flat_map (fun n => match n with ContainerNode c => [c] | _ => [] end) g.

Definition entryPoints (g : Graph) : list elbv2.ApplicationLoadBalancer :=
  flat_map (fun n => match n with PublicEntryPointNode l => [l] | _ => [] end) g.

Definition securityRules (g : Graph) : list ec2.SecurityRule :=
  flat_map (fun n => match n with SecurityRuleNode r => [r] | _ => [] end) g.

Definition firewallPolicies (g : Graph) : list wafv2.CfnWebACL :=
  flat_map (fun n => match n with FirewallPolicyNode a => [a] | _ => [] end) g.

Definition firewallBindings (g : Graph) : list wafv2.CfnWebACLAssociation :=
  flat_map (fun n => match n with FirewallBindingNode a => [a] | _ => [] end) g.

Definition grants (g : Graph) : list (LogicalId * iam.ManagedPolicy) :=
  flat_map (fun n => match n with GrantNode r p => [(r, p)] | _ => [] end) g.

Definition alarms (g : Graph) : list cw.Alarm :=
  flat_map (fun n => match n with AlarmNode a => [a] | _ => [] end) g.

(** What a construction hands on: the graph if it returned, nothing if it
    threw. *)
Definition emitted {A} (r : Result (A * Graph)) : option Graph :=
  match r with
  | Ok (_, g) => Some g
  | Throw _ => None
  end.

Definition Direction_eqb (a b : ec2.Direction) : bool :=
  match a, b with
  | ec2.Ingress, ec2.Ingress => true
  | ec2.Egress, ec2.Egress => true
  | _, _ => false
  end.

(** The rules of the graph that are attached to [target] in one direction. *)
Definition rulesOf (target : LogicalId) (direction : ec2.Direction) (g : Graph)
  : list ec2.SecurityRule :=
  filter (fun r => String.eqb (ec2.ruleTarget r) target
                   && Direction_eqb (ec2.ruleDirection r) direction)
         (securityRules g).

(** Some rule attached to [target] lets the address [a] through on [port]. *)
Definition admits (g : Graph) (target : LogicalId) (direction : ec2.Direction)
    (a port : Z) : bool :=
  existsb (fun r => ec2.Peer_admitsIp (ec2.rulePeer r) a
                    && ec2.Port_admits (ec2.rulePort r) port)
          (rulesOf target direction g).

(** No address belongs to the blocks of both subnets. *)
Definition disjointSubnets (s1 s2 : ec2.Subnet) : Prop :=
  ~ ec2.overlaps (ec2.ipv4CidrBlock s1) (ec2.ipv4CidrBlock s2).

(** A subnet whose block lies in the half-open interval from [lo] to [hi]. *)
Definition within (lo hi : Z) (s : ec2.Subnet) : Prop :=
  lo <= ec2.minAddress (ec2.ipv4CidrBlock s) /\
  ec2.maxAddress (ec2.ipv4CidrBlock s) < hi.

(** The firewall bindings of the graph that are to [resourceArn]. *)
Definition bindingsOf (resourceArn : string) (g : Graph) : list Node :=
  filter (bindsTo resourceArn) g.

(** No entry point has two firewall policies bound. *)
Definition atMostOneBinding (g : Graph) : Prop :=
  forall resourceArn, (List.length (bindingsOf resourceArn g) <= 1)%nat.

(** The properties of the backend's alarm, with the two counts left open. *)
Definition exampleAlarmProps (datapoints periods : Z) : cw.AlarmProps :=
  {| cw.metric := {| cw.metricSource := "BackendService/Service";
                     cw.metricName := "CPUUtilization";
                     cw.metricPeriod := minutes 1 |};
     cw.threshold := 70;
     cw.evaluationPeriods := periods;
     cw.datapointsToAlarm := datapoints;
     cw.alarmDescription := "CPU usage > 70% on backend";
     cw.comparisonOperator := cw.GREATER_THAN_THRESHOLD;
     cw.alarmName := "BackendHighCpu" |}.

(** The policy and the role of [GrantImagePull]. *)
Definition imagePullPolicy : iam.ManagedPolicy :=
  iam.fromAwsManagedPolicyName "AmazonEC2ContainerRegistryReadOnly".

Definition executionRoleOf (taskDefinition : ecs.FargateTaskDefinition) : LogicalId :=
  (ecs.taskDefinitionId taskDefinition ++ "/ExecutionRole")%string.

(** How many times the graph grants [policy] to [role]. *)
Definition grantCount (role : LogicalId) (policy : iam.ManagedPolicy) (g : Graph) : nat :=
  List.length (filter (isGrant role policy) g).

(** A database client whose every query is rejected. *)
Definition failingClient : backend.Client :=
  fun _ => backend.Rejected {| backend.errorName := "Error";
                               backend.message := "Connection terminated unexpectedly" |}.

(** A client whose query gives two rows, the first with two columns. *)
Definition answeringClient : backend.Client :=
  fun _ => backend.Resolved
             {| backend.rows :=
                  [ [("id", JString "1"); ("now", JString "2025-01-01T00:00:00.000Z")];
                    [("now", JString "later")] ] |}.

(** A client whose query resolves without rows. *)
Definition emptyClient : backend.Client :=
  fun _ => backend.Resolved {| backend.rows := [] |}.

(** Two environments that agree on the five variables and differ elsewhere. *)
Definition exampleEnv (other : option string) : ProcessEnv :=
  fun key =>
    if String.eqb key "DB_USER" then Some "postgres"
    else if String.eqb key "DB_HOST" then Some "db.internal"
    else if String.eqb key "DB_NAME" then Some "appdb"
    else if String.eqb key "DB_PASSWORD" then Some "secret"
    else if String.eqb key "DB_PORT" then None
    else other.

(** A process environment that names an account and no region. *)
Definition deployEnv : ProcessEnv :=
  fun key => if String.eqb key "CDK_DEFAULT_ACCOUNT" then Some "123456789012" else None.

(** Run the constructor in an empty app. *)
Ltac run_constructor :=
  split; [vm_compute; reflexivity|].

(** Membership in a list that is written out. *)
Ltac in_list := simpl; repeat (first [left; reflexivity | right]).

(** ** The backend's process: what it reads from its environment *)

Module backendProcess.

(** [process.env.PORT || 3000] is the variable's string, or the number. *)
Inductive PortValue :=
| PortString (s : string)
| PortNumber (n : Z).

Definition PORT (processEnv : ProcessEnv) : PortValue :=
  match processEnv "PORT" with
  | None => PortNumber 3000
  | Some EmptyString => PortNumber 3000
  | Some s => PortString s
  end.

Record Ssl := { rejectUnauthorized : bool }.

Record DbConfig (Number : Type) := {
  user : option string;
  host : option string;
  database : option string;
  password : option string;
  port : Number;
  ssl : Ssl
}.

Section DbConfig.

(** [parseInt] is the language's; the configuration only calls it. *)
Variable Number : Type.
Variable parseInt : string -> Z -> Number.

Definition dbConfig (processEnv : ProcessEnv) : DbConfig Number :=
  {| user := processEnv "DB_USER";
     host := processEnv "DB_HOST";
     database := processEnv "DB_NAME";
     password := processEnv "DB_PASSWORD";
     port := parseInt (orElse (processEnv "DB_PORT") "5432") 10;
     ssl := {| rejectUnauthorized := false |} |}.

End DbConfig.

(** The variables [dbConfig] reads. *)
Definition dbConfigKeys : list string :=
  ["DB_USER"; "DB_HOST"; "DB_NAME"; "DB_PASSWORD"; "DB_PORT"].

End backendProcess.

(** ** More readers of the graph *)

(** The variables a container is given, as plain values and as secrets. *)
Definition boundKeys (c : ecs.ContainerDefinition) : list string :=
  map fst (ecs.containerEnvironment c) ++ map fst (ecs.containerSecrets c).

Fixpoint plainBinding (key : string) (bindings : list (string * string))
  : option string :=
  match bindings with
  | [] => None
  | (k, v) :: rest => if String.eqb k key then Some v else plainBinding key rest
  end.

Definition alarmActions (g : Graph) : list (LogicalId * string) :=
  flat_map (fun n => match n with
                     | AlarmActionNode a c => [(a, cw.alarmActionArn c)]
                     | _ => []
                     end) g.

Definition notificationTargets (g : Graph) : list sns.Topic :=
  flat_map (fun n => match n with NotificationTargetNode t => [t] | _ => [] end) g.

Definition subscriptions (g : Graph) : list (LogicalId * subs.Subscription) :=
  flat_map (fun n => match n with SubscriptionNode t s => [(t, s)] | _ => [] end) g.

(** The names a node introduces in the stack: its logical id, and the
    attributes of it that other nodes can name. *)
Definition defined (n : Node) : list string :=
  match n with
  | StackNode _ _ => []
  | NetworkNode v => [ec2.vpcId v]
  | SubdivisionNode _ _ => []
  | CredentialNode s => [secretsManager.secretId s]
  | DataStoreNode d =>
      [rds.instanceId d; rds.dbInstanceEndpointAddress d; rds.dbInstanceEndpointPort d]
  | ClusterNode c => [ecs.clusterId c]
  | LogSinkNode l => [logs.logGroupId l]
  | TaskDefinitionNode t => [ecs.taskDefinitionId t]
  | ContainerNode _ => []
  | ExecutionRoleNode r => [iam.roleId r]
  | WorkloadNode w => [ecs.serviceId w]
  | PublicEntryPointNode l => [elbv2.loadBalancerId l; elbv2.loadBalancerArn l]
  | GrantNode _ _ => []
  | SecurityGroupNode s => [ec2.securityGroupId s]
  | SecurityRuleNode _ => []
  | FirewallPolicyNode a => [wafv2.webAclId a; wafv2.attrArn a]
  | FirewallBindingNode a => [wafv2.associationId a]
  | NotificationTargetNode t => [sns.topicId t; sns.topicArn t]
  | SubscriptionNode _ _ => []
  | AlarmNode a => [cw.alarmId a]
  | AlarmActionNode _ _ => []
  end.

Definition logGroupOf (d : ecs.LogDriver) : LogicalId :=
  match d with ecs.awsLogs p => logs.logGroupId (ecs.logGroup p) end.

Definition secretOf (s : ecs.Secret) : LogicalId :=
  match s with ecs.SecretFromSecretsManager id _ => id end.

Definition peerConstructs (p : ec2.Peer) : list LogicalId :=
  match p with
  | ec2.Ipv4Peer _ => []
  | ec2.ConnectablePeer id => [id]
  end.

(** The names a node needs: the constructs whose handles, ids or attributes
    went into it.  A load balancer and the service it targets are defined
    together and name each other. *)
Definition dependsOn (n : Node) : list string :=
  match n with
  | StackNode _ _ => []
  | NetworkNode _ => []
  | SubdivisionNode network _ => [network]
  | CredentialNode _ => []
  | DataStoreNode d =>
      [ ec2.vpcId (rds.vpc (rds.instanceProps d));
        match rds.credentials (rds.instanceProps d) with
        | rds.CredentialsFromSecret secret => secret
        end ]
  | ClusterNode c => [ec2.vpcId (ecs.vpc (ecs.clusterProps c))]
  | LogSinkNode _ => []
  | TaskDefinitionNode _ => []
  | ContainerNode c =>
      ecs.containerTaskDefinition c :: logGroupOf (ecs.containerLogging c)
        :: map (fun b => secretOf (snd b)) (ecs.containerSecrets c)
  | ExecutionRoleNode _ => []
  | WorkloadNode w =>
      ecs.serviceCluster w :: ecs.serviceTaskDefinition w
        :: ecs.serviceSecurityGroups w
        ++ match ecs.serviceEntryPoint w with Some l => [l] | None => [] end
  | PublicEntryPointNode l => [elbv2.targetService l]
  | GrantNode role _ => [role]
  | SecurityGroupNode s => [ec2.vpcId (ec2.vpc (ec2.securityGroupProps s))]
  | SecurityRuleNode r => ec2.ruleTarget r :: peerConstructs (ec2.rulePeer r)
  | FirewallPolicyNode _ => []
  | FirewallBindingNode a =>
      [ wafv2.resourceArn (wafv2.associationProps a);
        wafv2.webAclArn (wafv2.associationProps a) ]
  | NotificationTargetNode _ => []
  | SubscriptionNode topic _ => [topic]
  | AlarmNode a => [cw.metricSource (cw.metric (cw.alarmProps a))]
  | AlarmActionNode alarm action => [alarm; cw.alarmActionArn action]
  end.

(** Every name a node of [g] needs is introduced by a node of [g]. *)
Definition resolved (g : Graph) : bool :=
  forallb (fun n => forallb (fun d => existsb (String.eqb d) (flat_map defined g))
                            (dependsOn n)) g.

Fixpoint distinct (l : list string) : bool :=
  match l with
  | [] => true
  | x :: rest => negb (existsb (String.eqb x) rest) && distinct rest
  end.

(** ** Address allocation *)

Section Allocation.

Variable range : ec2.CidrBlock.

Lemma networkSize_pos (m : Z) : m <= 32 -> 0 < ec2.networkSize m.
Proof.
  intros Hm. unfold ec2.networkSize. apply Z.pow_pos_nonneg; lia.
Qed.

Lemma alignUp_ge (next size : Z) : 0 < size -> next <= alignUp next size.
Proof.
  intros Hs. unfold alignUp.
  pose proof (Z.mod_pos_bound next size Hs) as Hb.
  destruct (next mod size =? 0); lia.
Qed.

Lemma addSubnet_spec (next m : Z) (b : ec2.CidrBlock) (next' : Z) :
  m <= 32 ->
  addSubnet range next m = Some (b, next') ->
  next <= ec2.minAddress b /\ ec2.maxAddress b < next' /\
  ec2.minAddress b < next' /\ ec2.mask b = m.
Proof.
  intros Hm. unfold addSubnet.
  destruct (_ <=? _); [|discriminate].
  intros H; inversion H; subst; clear H.
  pose proof (networkSize_pos Hm) as Hs.
  pose proof (alignUp_ge next Hs) as Ha.
  unfold ec2.minAddress, ec2.maxAddress; simpl. lia.
Qed.

Lemma within_disjoint (s1 s2 : ec2.Subnet) (lo mid hi : Z) :
  within lo mid s1 -> within mid hi s2 -> disjointSubnets s1 s2.
Proof.
  intros [_ H1] [H2 _] [a [Ha1 Ha2]].
  unfold ec2.containsIp in Ha1, Ha2.
  apply andb_prop in Ha1, Ha2. destruct Ha1 as [_ Ha1], Ha2 as [Ha2 _].
  apply Z.leb_le in Ha1, Ha2. lia.
Qed.

Lemma within_widen (lo lo' hi hi' : Z) (s : ec2.Subnet) :
  lo' <= lo -> hi <= hi' -> within lo hi s -> within lo' hi' s.
Proof. unfold within; lia. Qed.

Lemma ForallOrdPairs_app {A} (R : A -> A -> Prop) (l1 l2 : list A) :
  ForallOrdPairs R l1 -> ForallOrdPairs R l2 ->
  (forall x y, In x l1 -> In y l2 -> R x y) ->
  ForallOrdPairs R (l1 ++ l2).
Proof.
  induction 1 as [|a l Ha Hl IH]; intros H2 Hx; simpl; [assumption|].
  constructor.
  - apply Forall_app; split; [assumption|].
    apply Forall_forall; intros y Hy. apply Hx; [left; reflexivity | assumption].
  - apply IH; [assumption|]. intros x y Hin Hy. apply Hx; [right|]; assumption.
Qed.

(** A group's subnets: one per zone, of the group's kind and prefix length,
    in increasing, disjoint blocks between [next] and the address returned. *)
Lemma allocateGroup_spec (cfg : ec2.SubnetConfiguration) (azs : list nat) :
  ec2.cidrMask cfg <= 32 ->
  forall next group next',
    allocateGroup range cfg azs next = Some (group, next') ->
    next <= next' /\
    map ec2.availabilityZone group = azs /\
    Forall (fun s => ec2.subnetKind s = ec2.subnetType cfg /\
                     ec2.mask (ec2.ipv4CidrBlock s) = ec2.cidrMask cfg) group /\
    Forall (within next next') group /\
    ForallOrdPairs disjointSubnets group.
Proof.
  intros Hm. induction azs as [|az rest IH]; simpl; intros next group next' H.
  - inversion H; subst. repeat split; try constructor; lia.
  - destruct (addSubnet range next (ec2.cidrMask cfg)) as [[b n1]|] eqn:Hb; [|discriminate].
    destruct (allocateGroup range cfg rest n1) as [[more n2]|] eqn:Hr; [|discriminate].
    inversion H; subst; clear H.
    destruct (addSubnet_spec _ Hm Hb) as (Hlo & Hhi & Hne & Hmask).
    destruct (IH _ _ _ Hr) as (Hle & Hlen & Hkind & Hwithin & Hpairs).
    assert (Hfirst : within next n1
              {| ec2.subnetGroupName := ec2.name cfg;
                 ec2.subnetKind := ec2.subnetType cfg;
                 ec2.availabilityZone := az;
                 ec2.ipv4CidrBlock := b |}) by (split; simpl; assumption).
    repeat split.
    + lia.
    + simpl; congruence.
    + constructor; [split; simpl; [reflexivity | assumption] | assumption].
    + constructor.
      * eapply within_widen; [| |exact Hfirst]; lia.
      * eapply Forall_impl; [|exact Hwithin].
        intros s Hs. eapply within_widen; [| |exact Hs]; lia.
    + constructor; [|assumption].
      eapply Forall_impl; [|exact Hwithin].
      intros s Hs. eapply within_disjoint; eassumption.
Qed.

(** All groups together: still increasing and disjoint, every subnet of the
    kind and prefix length of one of the configured groups. *)
Lemma allocateSubnets_spec (azs : list nat) (cfgs : list ec2.SubnetConfiguration) :
  Forall (fun cfg => ec2.cidrMask cfg <= 32) cfgs ->
  forall next allocated next',
    allocateSubnets range cfgs azs next = Some (allocated, next') ->
    next <= next' /\
    Forall (within next next') allocated /\
    ForallOrdPairs disjointSubnets allocated.
Proof.
  induction 1 as [|cfg rest Hm Hrest IH]; simpl; intros next allocated next' H.
  - inversion H; subst. repeat split; try constructor; lia.
  - destruct (allocateGroup range cfg azs next) as [[group n1]|] eqn:Hg; [|discriminate].
    destruct (allocateSubnets range rest azs n1) as [[more n2]|] eqn:Hr; [|discriminate].
    inversion H; subst; clear H.
    destruct (allocateGroup_spec _ _ Hm _ Hg) as (Hle1 & _ & _ & Hw1 & Hp1).
    destruct (IH _ _ _ Hr) as (Hle2 & Hw2 & Hp2).
    repeat split.
    + lia.
    + apply Forall_app; split; (eapply Forall_impl; [|eassumption]);
        intros s Hs; (eapply within_widen; [| |exact Hs]); lia.
    + apply ForallOrdPairs_app; [assumption | assumption |].
      intros x y Hx Hy.
      rewrite Forall_forall in Hw1, Hw2.
      eapply within_disjoint; [apply Hw1 | apply Hw2]; assumption.
Qed.

End Allocation.

(** ** The network *)

Lemma filter_all {A} (f : A -> bool) (l : list A) :
  Forall (fun x => f x = true) l -> filter f l = l.
Proof.
  induction 1 as [|x l Hx _ IH]; simpl; [reflexivity|].
  rewrite Hx, IH; reflexivity.
Qed.

Lemma filter_none {A} (f : A -> bool) (l : list A) :
  Forall (fun x => f x = false) l -> filter f l = [].
Proof.
  induction 1 as [|x l Hx _ IH]; simpl; [reflexivity|].
  rewrite Hx; exact IH.
Qed.

Lemma networks_app (g h : Graph) : networks (g ++ h) = (networks g ++ networks h)%list.
Proof. apply flat_map_app. Qed.

Lemma subdivisions_app (g h : Graph) :
  subdivisions (g ++ h) = (subdivisions g ++ subdivisions h)%list.
Proof. apply flat_map_app. Qed.

Lemma subdivisions_of_nodes (id : LogicalId) (l : list ec2.Subnet) :
  subdivisions (map (SubdivisionNode id) l) = l /\
  networks (map (SubdivisionNode id) l) = [].
Proof.
  induction l as [|s l [IH1 IH2]]; simpl; [split; reflexivity|].
  unfold subdivisions, networks in *; simpl. rewrite IH1, IH2. split; reflexivity.
Qed.

(** What a successful [new_Vpc] did. *)
Lemma new_Vpc_ok (id : LogicalId) (props : ec2.VpcProps) (g g' : Graph)
    (network : ec2.Vpc) :
  new_Vpc id props g = Ok (network, g') ->
  1 <= ec2.maxAzs props /\
  ec2.availabilityZones network = seq 0 (Z.to_nat (ec2.maxAzs props)) /\
  (exists next',
     allocateSubnets defaultVpcCidr (ec2.subnetConfiguration props)
       (ec2.availabilityZones network) (ec2.minAddress defaultVpcCidr)
     = Some (ec2.subnets network, next')) /\
  g' = ((g ++ [NetworkNode network])
          ++ map (SubdivisionNode id) (ec2.subnets network))%list.
Proof.
  unfold new_Vpc.
  destruct (ec2.maxAzs props <? 1) eqn:Hn; [discriminate|].
  apply Z.ltb_ge in Hn.
  destruct (allocateSubnets _ _ _ _) as [[allocated next']|] eqn:Ha; [|discriminate].
  unfold bind, emit, emitAll, ret. intros H; inversion H; subst; clear H. simpl.
  repeat split; [assumption | exists next'; assumption].
Qed.

(** C1: a network built for the stack's two subnet groups has, whatever the
    number of availability zones requested, one public and one private
    subnet in each zone, so as many of each kind as zones; every block has
    prefix length 24 and no two blocks share an address.  The stack itself
    asks for 2 zones and gets 2 public and 2 private subnets, 4 in all. *)
Theorem network_subdivisions
    (id : LogicalId) (props : ec2.VpcProps) (g g' : Graph) (network : ec2.Vpc)
    (stackId : LogicalId) (stackProps : StackProps) :
  ec2.subnetConfiguration props = ec2.subnetConfiguration AppVpcProps ->
  new_Vpc id props g = Ok (network, g') ->
  (Z.of_nat (List.length (ec2.availabilityZones network)) = ec2.maxAzs props /\
   map ec2.availabilityZone (ec2.publicSubnets network) = ec2.availabilityZones network /\
   map ec2.availabilityZone (ec2.privateSubnets network) = ec2.availabilityZones network /\
   Z.of_nat (List.length (ec2.publicSubnets network)) = ec2.maxAzs props /\
   Z.of_nat (List.length (ec2.privateSubnets network)) = ec2.maxAzs props /\
   Forall (fun s => ec2.mask (ec2.ipv4CidrBlock s) = 24) (ec2.subnets network) /\
   ForallOrdPairs disjointSubnets (ec2.subnets network) /\
   networks g' = (networks g ++ [network])%list /\
   subdivisions g' = (subdivisions g ++ ec2.subnets network)%list) /\
  (exists stack graph,
     new_AwsInfraStack stackId stackProps [] = Ok (stack, graph) /\
     ec2.maxAzs AppVpcProps = 2 /\
     networks graph = [vpc stack] /\
     subdivisions graph = ec2.subnets (vpc stack) /\
     List.length (ec2.publicSubnets (vpc stack)) = 2%nat /\
     List.length (ec2.privateSubnets (vpc stack)) = 2%nat /\
     List.length (ec2.subnets (vpc stack)) = 4%nat).
Proof.
  intros Hcfg Hnew. split.
  - destruct (new_Vpc_ok _ _ _ Hnew) as (Hn & Hazs & [next' Halloc] & Hg').
    rewrite Hcfg in Halloc. simpl in Halloc.
    destruct (allocateGroup _ _ _ _) as [[pub n1]|] eqn:Hpub; [|discriminate].
    destruct (allocateGroup _ _ _ n1) as [[priv n2]|] eqn:Hpriv; [|discriminate].
    injection Halloc as Hsub Hnext.
    apply allocateGroup_spec in Hpub as (Hle1 & Hz1 & Hk1 & Hw1 & Hp1);
      [|simpl; lia].
    apply allocateGroup_spec in Hpriv as (Hle2 & Hz2 & Hk2 & Hw2 & Hp2);
      [|simpl; lia].
    simpl in Hk1, Hk2.
    assert (Hlen : Z.of_nat (List.length (ec2.availabilityZones network))
                   = ec2.maxAzs props)
      by (rewrite Hazs, length_seq; lia).
    assert (Hpublic : ec2.publicSubnets network = pub).
    { unfold ec2.publicSubnets, ec2.subnetsOfType. rewrite <- Hsub, !filter_app.
      rewrite (filter_all _ (l := pub)), (filter_none _ (l := priv)).
      - simpl. rewrite app_nil_r. reflexivity.
      - eapply Forall_impl; [|exact Hk2]. intros s [Hs _]; rewrite Hs; reflexivity.
      - eapply Forall_impl; [|exact Hk1]. intros s [Hs _]; rewrite Hs; reflexivity. }
    assert (Hprivate : ec2.privateSubnets network = priv).
    { unfold ec2.privateSubnets, ec2.subnetsOfType. rewrite <- Hsub, !filter_app.
      rewrite (filter_none _ (l := pub)), (filter_all _ (l := priv)).
      - simpl. rewrite app_nil_r. reflexivity.
      - eapply Forall_impl; [|exact Hk2]. intros s [Hs _]; rewrite Hs; reflexivity.
      - eapply Forall_impl; [|exact Hk1]. intros s [Hs _]; rewrite Hs; reflexivity. }
    rewrite Hpublic, Hprivate.
    repeat split.
    + exact Hlen.
    + exact Hz1.
    + exact Hz2.
    + rewrite <- Hlen, <- Hz1 at 1. rewrite length_map. reflexivity.
    + rewrite <- Hlen, <- Hz2 at 1. rewrite length_map. reflexivity.
    + rewrite <- Hsub, app_nil_r.
      apply Forall_app; split;
        [eapply Forall_impl; [|exact Hk1] | eapply Forall_impl; [|exact Hk2]];
        intros s [_ Hs]; exact Hs.
    + rewrite <- Hsub, app_nil_r.
      apply ForallOrdPairs_app; [assumption | assumption |].
      intros x y Hx Hy. rewrite Forall_forall in Hw1, Hw2.
      eapply within_disjoint; [apply Hw1 | apply Hw2]; assumption.
    + rewrite Hg', !networks_app.
      rewrite (proj2 (subdivisions_of_nodes id _)). simpl. rewrite app_nil_r. reflexivity.
    + rewrite Hg', !subdivisions_app.
      rewrite (proj1 (subdivisions_of_nodes id _)). simpl. rewrite app_nil_r. reflexivity.
  - eexists; eexists. split; [vm_compute; reflexivity|].
    repeat split.
Qed.

Lemma network_subdivisions_witness :
  ec2.subnetConfiguration AppVpcProps = ec2.subnetConfiguration AppVpcProps /\
  (exists network g', new_Vpc "AppVpc" AppVpcProps [] = Ok (network, g') /\
   Z.of_nat (List.length (ec2.publicSubnets network)) = 2 /\
   Z.of_nat (List.length (ec2.privateSubnets network)) = 2 /\
   ForallOrdPairs disjointSubnets (ec2.subnets network)).
Proof.
  split; [reflexivity|].
  eexists; eexists. split; [vm_compute; reflexivity|].
  match goal with
  | |- context [ec2.publicSubnets ?n] =>
      pose proof (@network_subdivisions "AppVpc" AppVpcProps [] _ n
                    "AwsInfraStack" {| env := None |} eq_refl eq_refl) as H
  end.
  destruct H as [(_ & _ & _ & Hpub & Hpriv & _ & Hdis & _) _].
  exact (conj Hpub (conj Hpriv Hdis)).
Defined.

(** ** The stack's graph *)

(** C2: whatever the stack is named and given, its graph has one data store,
    the stack's database; its public-reachability flag is false, and it is
    placed in subnets of the graph, at least one, all of them private. *)
Theorem data_store_private (id : LogicalId) (props : StackProps) :
  exists stack graph,
    new_AwsInfraStack id props [] = Ok (stack, graph) /\
    dataStores graph = [database stack] /\
    forall d, In d (dataStores graph) ->
      rds.publiclyAccessible (rds.instanceProps d) = false /\
      rds.instanceSubnets d <> [] /\
      Forall (fun s => ec2.isPrivate (ec2.subnetKind s) = true /\
                       In s (subdivisions graph) /\
                       In s (ec2.privateSubnets (vpc stack)))
             (rds.instanceSubnets d).
Proof.
  eexists; eexists. run_constructor.
  split; [reflexivity|].
  intros d Hd. vm_compute in Hd. destruct Hd as [<-|[]].
  split; [reflexivity|]. split; [discriminate|].
  repeat (apply Forall_cons; [repeat split; in_list|]). apply Forall_nil.
Qed.

(** C3: in the stack's graph the ingress rules of the database are exactly
    one rule; its source is the load-balanced backend workload, not an
    address range, and it lets through port 5432 and no other.  No rule of
    the database admits a connection from any address. *)
Theorem database_ingress (id : LogicalId) (props : StackProps) :
  exists stack graph backend,
    new_AwsInfraStack id props [] = Ok (stack, graph) /\
    In backend (workloads graph) /\
    ecs.serviceId backend = "BackendService/Service" /\
    ecs.serviceEntryPoint backend = Some "BackendService/LB" /\
    rulesOf (rds.instanceId (database stack)) ec2.Ingress graph =
      [ {| ec2.ruleTarget := rds.instanceId (database stack);
           ec2.ruleDirection := ec2.Ingress;
           ec2.rulePeer := ec2.ConnectablePeer (ecs.serviceId backend);
           ec2.rulePort := ec2.tcp 5432;
           ec2.ruleDescription := "Allow backend ECS tasks to connect to PostgresSQL" |} ] /\
    (forall r, In r (rulesOf (rds.instanceId (database stack)) ec2.Ingress graph) ->
       ec2.rulePeer r = ec2.ConnectablePeer (ecs.serviceId backend) /\
       (forall port, ec2.Port_admits (ec2.rulePort r) port = true <-> port = 5432) /\
       (forall range, ec2.rulePeer r <> ec2.Ipv4Peer range)) /\
    (forall a port,
       admits graph (rds.instanceId (database stack)) ec2.Ingress a port = false).
Proof.
  eexists; eexists; eexists. run_constructor.
  split; [in_list|].
  do 3 (split; [reflexivity|]).
  split.
  - intros r Hr. vm_compute in Hr. destruct Hr as [<-|[]].
    split; [reflexivity|]. split; [|discriminate].
    intros port. cbn [ec2.Port_admits ec2.rulePort]. rewrite Z.eqb_eq.
    split; intros; subst; reflexivity.
  - intros a port. reflexivity.
Qed.

(** C4: in the stack's graph there is one credential; it fixes the username
    and names the key of the generated field, for which it holds no value.
    The backend container binds DB_USER and DB_PASSWORD to fields of that
    credential by reference, and DB_NAME, DB_HOST, DB_PORT to plain strings;
    no container has a plain value under DB_USER or DB_PASSWORD, and the
    database logs in by reference to the same credential. *)
Theorem credential_by_reference (id : LogicalId) (props : StackProps) :
  exists stack graph secret,
    new_AwsInfraStack id props [] = Ok (stack, graph) /\
    credentials graph = [secret] /\
    secretsManager.generateSecretString (secretsManager.secretProps secret) =
      {| secretsManager.secretStringTemplate :=
           "{" ++ quoteString "username" ++ ":" ++ quoteString "postgres" ++ "}";
         secretsManager.generateStringKey := "password";
         secretsManager.excludePunctuation := true |} /\
    rds.credentials (rds.instanceProps (database stack)) =
      rds.CredentialsFromSecret (secretsManager.secretId secret) /\
    (exists container,
       In container (containers graph) /\
       ecs.containerTaskDefinition container = "BackendService/TaskDef" /\
       ecs.containerSecrets container =
         [ ("DB_USER",
            ecs.SecretFromSecretsManager (secretsManager.secretId secret) "username");
           ("DB_PASSWORD",
            ecs.SecretFromSecretsManager (secretsManager.secretId secret) "password") ] /\
       ecs.containerEnvironment container =
         [ ("DB_NAME", "appdb");
           ("DB_HOST", rds.dbInstanceEndpointAddress (database stack));
           ("DB_PORT", rds.dbInstanceEndpointPort (database stack)) ]) /\
    (forall container key value,
       In container (containers graph) ->
       In (key, value) (ecs.containerEnvironment container) ->
       key <> "DB_USER" /\ key <> "DB_PASSWORD").
Proof.
  eexists; eexists; eexists. run_constructor.
  split; [reflexivity|].
  split; [reflexivity|].
  split; [reflexivity|].
  split.
  - eexists. split; [in_list|]. repeat split.
  - intros container key value Hc Hk. vm_compute in Hc.
    destruct Hc as [<-|[<-|[]]]; simpl in Hk.
    + destruct Hk as [Hk|[Hk|[Hk|[]]]]; inversion Hk; subst; split; discriminate.
    + destruct Hk.
Qed.

(** ** Who a security group lets in *)

Lemma anyIpv4_admits (a : Z) :
  0 <= a < 2 ^ 32 -> ec2.Peer_admitsIp ec2.anyIpv4 a = true.
Proof.
  intros [Hlo Hhi].
  unfold ec2.anyIpv4, ec2.Peer_admitsIp, ec2.containsIp, ec2.minAddress,
    ec2.maxAddress, ec2.networkSize; cbn [ec2.networkAddress ec2.mask].
  change (ec2.ipv4 0 0 0 0) with 0. change (32 - 0) with 32.
  apply andb_true_intro; split; apply Z.leb_le; lia.
Qed.

Lemma admits_of_rule (g : Graph) (target : LogicalId) (direction : ec2.Direction)
    (r : ec2.SecurityRule) (a port : Z) :
  In r (rulesOf target direction g) ->
  ec2.Peer_admitsIp (ec2.rulePeer r) a = true ->
  ec2.Port_admits (ec2.rulePort r) port = true ->
  admits g target direction a port = true.
Proof.
  intros Hin Hpeer Hport. unfold admits. apply existsb_exists.
  exists r. split; [assumption|]. rewrite Hpeer, Hport. reflexivity.
Qed.

(** C9: in the stack's graph the frontend workload is standalone: no entry
    point is in front of it, while the backend has one.  It is placed in the
    public subnets of the network, is assigned a public IP, and has one
    security group.  That group has one ingress rule, TCP port 80 from
    0.0.0.0/0, which admits every IPv4 address on port 80; the group allows
    all outbound traffic, to every address on every port. *)
Theorem frontend_exposed (id : LogicalId) (props : StackProps) :
  exists stack graph frontend backend group,
    new_AwsInfraStack id props [] = Ok (stack, graph) /\
    In (SecurityGroupNode group) graph /\
    workloads graph = [backend; frontend] /\
    ecs.serviceEntryPoint backend = Some "BackendService/LB" /\
    ecs.serviceId frontend = "FrontendService" /\
    ecs.serviceEntryPoint frontend = None /\
    (forall lb, In lb (entryPoints graph) ->
       elbv2.targetService lb <> ecs.serviceId frontend) /\
    ecs.serviceAssignPublicIp frontend = Some true /\
    ecs.servicePlacement frontend = Some (ec2.publicSubnets (vpc stack)) /\
    ec2.publicSubnets (vpc stack) <> [] /\
    Forall (fun s => ec2.subnetKind s = ec2.PUBLIC /\ In s (subdivisions graph))
           (ec2.publicSubnets (vpc stack)) /\
    ecs.serviceSecurityGroups frontend = [ec2.securityGroupId group] /\
    ec2.allowAllOutbound (ec2.securityGroupProps group) = true /\
    rulesOf (ec2.securityGroupId group) ec2.Ingress graph =
      [ {| ec2.ruleTarget := ec2.securityGroupId group;
           ec2.ruleDirection := ec2.Ingress;
           ec2.rulePeer := ec2.Ipv4Peer {| ec2.networkAddress := ec2.ipv4 0 0 0 0;
                                           ec2.mask := 0 |};
           ec2.rulePort := ec2.tcp 80;
           ec2.ruleDescription := "Allow HTTP from public" |} ] /\
    (forall a, 0 <= a < 2 ^ 32 ->
       admits graph (ec2.securityGroupId group) ec2.Ingress a 80 = true) /\
    (forall a port, 0 <= a < 2 ^ 32 ->
       admits graph (ec2.securityGroupId group) ec2.Egress a port = true).
Proof.
  eexists; eexists; eexists; eexists; eexists. run_constructor.
  split; [in_list|].
  split; [reflexivity|].
  do 3 (split; [reflexivity|]).
  split.
  { intros lb Hlb. vm_compute in Hlb. destruct Hlb as [<-|[]]. discriminate. }
  do 2 (split; [reflexivity|]).
  split; [discriminate|].
  split.
  { repeat (apply Forall_cons; [split; [reflexivity | in_list]|]). apply Forall_nil. }
  do 3 (split; [reflexivity|]).
  split.
  - intros a Ha. eapply admits_of_rule.
    + vm_compute. left; reflexivity.
    + apply anyIpv4_admits; exact Ha.
    + reflexivity.
  - intros a port Ha. eapply admits_of_rule.
    + vm_compute. left; reflexivity.
    + apply anyIpv4_admits; exact Ha.
    + reflexivity.
Qed.

(** ** Entry points and firewall bindings *)

Lemma existsb_false_filter {A} (f : A -> bool) (l : list A) :
  existsb f l = false -> filter f l = [].
Proof.
  induction l as [|x l IH]; simpl; [reflexivity|].
  intros H. apply orb_false_elim in H as [Hx Hl]. rewrite Hx. exact (IH Hl).
Qed.

Lemma bindingsOf_le (resourceArn : string) (g : Graph) :
  (List.length (bindingsOf resourceArn g) <= List.length (firewallBindings g))%nat.
Proof.
  unfold bindingsOf, firewallBindings.
  induction g as [|n g IH]; simpl; [lia|].
  destruct n; simpl; try exact IH.
  destruct (String.eqb _ _); simpl; lia.
Qed.

Lemma new_CfnWebACLAssociation_ok (id : LogicalId)
    (props : wafv2.CfnWebACLAssociationProps) (g g' : Graph)
    (a : wafv2.CfnWebACLAssociation) :
  new_CfnWebACLAssociation id props g = Ok (a, g') ->
  existsb (bindsTo (wafv2.resourceArn props)) g = false /\
  a = {| wafv2.associationId := id; wafv2.associationProps := props |} /\
  g' = g ++ [FirewallBindingNode a].
Proof.
  unfold new_CfnWebACLAssociation, bind, inspect, throw, emit, ret.
  destruct (existsb _ g); [discriminate|].
  intros H; inversion H; subst. repeat split.
Qed.

Lemma new_CfnWebACLAssociation_bound (id : LogicalId)
    (props : wafv2.CfnWebACLAssociationProps) (g : Graph) :
  existsb (bindsTo (wafv2.resourceArn props)) g = true ->
  new_CfnWebACLAssociation id props g = Throw (alreadyBound id).
Proof.
  intros H. unfold new_CfnWebACLAssociation, bind, inspect, throw.
  rewrite H. reflexivity.
Qed.

(** C5: the load-balanced way of adding a workload returns when desired
    count, CPU and memory are positive, and fails, defining nothing, when
    they are not.  Whenever it returns, it has added to the graph one
    workload and one entry point, each naming the other, so neither is ever
    defined without the other.  Binding a firewall policy to an entry point
    succeeds only if none is bound, leaves exactly one bound, keeps the graph
    free of entry points with two policies, and makes every later binding to
    the same entry point fail.  The stack's graph has one load-balanced
    workload, one entry point, one policy bound to it, and a further binding
    to it fails. *)
Theorem entry_point_and_firewall
    (id : LogicalId) (props : ecsPatterns.ApplicationLoadBalancedFargateServiceProps)
    (g : Graph)
    (id1 id2 : LogicalId) (props1 props2 : wafv2.CfnWebACLAssociationProps)
    (h h1 : Graph) (first : wafv2.CfnWebACLAssociation)
    (stackId : LogicalId) (stackProps : StackProps) :
  new_CfnWebACLAssociation id1 props1 h = Ok (first, h1) ->
  wafv2.resourceArn props2 = wafv2.resourceArn props1 ->
  (0 < ecsPatterns.desiredCount props /\ 0 < ecsPatterns.cpu props /\
   0 < ecsPatterns.memoryLimitMiB props ->
   exists r g', new_ApplicationLoadBalancedFargateService id props g = Ok (r, g')) /\
  (~ (0 < ecsPatterns.desiredCount props /\ 0 < ecsPatterns.cpu props /\
      0 < ecsPatterns.memoryLimitMiB props) ->
   new_ApplicationLoadBalancedFargateService id props g = Throw (nonPositiveSize id) /\
   emitted (new_ApplicationLoadBalancedFargateService id props g) = None) /\
  (forall r g',
     new_ApplicationLoadBalancedFargateService id props g = Ok (r, g') ->
     workloads g' = workloads g ++ [ecsPatterns.service r] /\
     entryPoints g' = entryPoints g ++ [ecsPatterns.loadBalancer r] /\
     ecs.serviceEntryPoint (ecsPatterns.service r)
       = Some (elbv2.loadBalancerId (ecsPatterns.loadBalancer r)) /\
     elbv2.targetService (ecsPatterns.loadBalancer r)
       = ecs.serviceId (ecsPatterns.service r)) /\
  bindingsOf (wafv2.resourceArn props1) h = [] /\
  bindingsOf (wafv2.resourceArn props1) h1 = [FirewallBindingNode first] /\
  (atMostOneBinding h -> atMostOneBinding h1) /\
  new_CfnWebACLAssociation id2 props2 h1 = Throw (alreadyBound id2) /\
  (exists stack graph backend lb binding,
     new_AwsInfraStack stackId stackProps [] = Ok (stack, graph) /\
     entryPoints graph = [lb] /\
     filter (fun w => match ecs.serviceEntryPoint w with
                      | Some _ => true
                      | None => false
                      end) (workloads graph) = [backend] /\
     ecs.serviceEntryPoint backend = Some (elbv2.loadBalancerId lb) /\
     elbv2.targetService lb = ecs.serviceId backend /\
     firewallBindings graph = [binding] /\
     bindingsOf (elbv2.loadBalancerArn lb) graph = [FirewallBindingNode binding] /\
     atMostOneBinding graph /\
     forall id' props',
       wafv2.resourceArn props' = elbv2.loadBalancerArn lb ->
       new_CfnWebACLAssociation id' props' graph = Throw (alreadyBound id')).
Proof.
  intros Hfirst Hsame.
  destruct (new_CfnWebACLAssociation_ok _ _ _ Hfirst) as (Hfree & Hval & Hh1).
  assert (Hself : bindsTo (wafv2.resourceArn props1) (FirewallBindingNode first) = true)
    by (rewrite Hval; simpl; apply String.eqb_refl).
  assert (Hsizes : positiveSizes props = true <->
                   0 < ecsPatterns.desiredCount props /\ 0 < ecsPatterns.cpu props /\
                   0 < ecsPatterns.memoryLimitMiB props).
  { unfold positiveSizes. rewrite !andb_true_iff, !Z.ltb_lt. tauto. }
  split; [|split; [|split; [|split; [|split; [|split; [|split]]]]]].
  - intros Hpos. apply Hsizes in Hpos.
    unfold new_ApplicationLoadBalancedFargateService. rewrite Hpos.
    eexists; eexists. reflexivity.
  - intros Hneg.
    assert (Hfalse : positiveSizes props = false).
    { destruct (positiveSizes props); [|reflexivity].
      exfalso. apply Hneg. apply Hsizes. reflexivity. }
    unfold new_ApplicationLoadBalancedFargateService. rewrite Hfalse.
    split; reflexivity.
  - intros r g'. unfold new_ApplicationLoadBalancedFargateService.
    destruct (positiveSizes props); [|discriminate].
    cbn [negb]. unfold bind, emitAll, ret. intros H. injection H as <- <-.
    unfold workloads, entryPoints. rewrite !flat_map_app. simpl. repeat split.
  - apply existsb_false_filter; exact Hfree.
  - unfold bindingsOf. rewrite Hh1, filter_app, (existsb_false_filter _ _ Hfree).
    cbn [filter app]. rewrite Hself. reflexivity.
  - intros Hinv arn. unfold bindingsOf. rewrite Hh1, filter_app, length_app.
    cbn [filter].
    destruct (bindsTo arn (FirewallBindingNode first)) eqn:Harn; simpl.
    + rewrite Hval in Harn; simpl in Harn. apply String.eqb_eq in Harn. subst arn.
      rewrite (existsb_false_filter _ _ Hfree). simpl. lia.
    + specialize (Hinv arn). unfold bindingsOf in Hinv. lia.
  - apply new_CfnWebACLAssociation_bound.
    rewrite Hsame, Hh1, existsb_app. cbn [existsb]. rewrite Hself.
    rewrite orb_true_r. reflexivity.
  - eexists; eexists; eexists; eexists; eexists. run_constructor.
    do 6 (split; [reflexivity|]).
    split.
    + intros arn. etransitivity; [apply bindingsOf_le|]. apply Nat.le_refl.
    + intros id' props' Harn. apply new_CfnWebACLAssociation_bound.
      rewrite Harn. reflexivity.
Qed.

Lemma entry_point_and_firewall_witness :
  exists first h1,
    new_CfnWebACLAssociation "WafAssociation"
      {| wafv2.resourceArn := attribute "BackendService/LB" "Arn";
         wafv2.webAclArn := attribute "BackendWafAcl" "Arn" |} [] = Ok (first, h1) /\
    new_CfnWebACLAssociation "SecondAssociation"
      {| wafv2.resourceArn := attribute "BackendService/LB" "Arn";
         wafv2.webAclArn := attribute "OtherAcl" "Arn" |} h1
    = Throw (alreadyBound "SecondAssociation").
Proof.
  eexists; eexists. split; [vm_compute; reflexivity|].
  pose (props :=
    {| ecsPatterns.cluster :=
         {| ecs.clusterId := "AppCluster";
            ecs.clusterProps :=
              {| ecs.vpc := {| ec2.vpcId := "AppVpc";
                               ec2.vpcCidrBlock := defaultVpcCidr;
                               ec2.vpcNatGateways := 1;
                               ec2.availabilityZones := [];
                               ec2.subnets := [] |} |} |};
       ecsPatterns.desiredCount := 1;
       ecsPatterns.cpu := 256;
       ecsPatterns.memoryLimitMiB := 512;
       ecsPatterns.publicLoadBalancer := true;
       ecsPatterns.taskImageOptions :=
         {| ecsPatterns.image := ecs.fromRegistry "backend";
            ecsPatterns.containerPort := 3000;
            ecsPatterns.environment := [];
            ecsPatterns.secrets := [];
            ecsPatterns.logDriver :=
              ecs.awsLogs
                {| ecs.streamPrefix := "backend";
                   ecs.logGroup :=
                     {| logs.logGroupId := "BackendLogGroup";
                        logs.logGroupProps :=
                          {| logs.logGroupName := "/ecs/backend";
                             logs.retention := logs.ONE_WEEK;
                             logs.removalPolicy := DESTROY |} |} |} |} |}).
  exact (proj1 (proj2 (proj2 (proj2 (proj2 (proj2 (proj2
    (@entry_point_and_firewall "BackendService" props []
       "WafAssociation" "SecondAssociation"
       {| wafv2.resourceArn := attribute "BackendService/LB" "Arn";
          wafv2.webAclArn := attribute "BackendWafAcl" "Arn" |}
       {| wafv2.resourceArn := attribute "BackendService/LB" "Arn";
          wafv2.webAclArn := attribute "OtherAcl" "Arn" |}
       [] _ _
       "AwsInfraStack" {| env := None |} eq_refl eq_refl)))))))).
Defined.

(** ** Alarms *)

(** C6: an alarm whose [datapointsToAlarm] exceeds its [evaluationPeriods]
    fails the construction, with an error naming the alarm, and leaves no
    graph; otherwise the alarm is added.  So 3 datapoints out of 2 periods
    fail, and the stack's two alarms, each 2 out of 2, are both in its
    graph. *)
Theorem alarm_validation (id : LogicalId) (props : cw.AlarmProps) (g : Graph)
    (stackId : LogicalId) (stackProps : StackProps) :
  (cw.evaluationPeriods props < cw.datapointsToAlarm props ->
     new_Alarm id props g = Throw (tooManyDatapoints id) /\
     emitted (new_Alarm id props g) = None) /\
  (cw.datapointsToAlarm props <= cw.evaluationPeriods props ->
     new_Alarm id props g =
       Ok ({| cw.alarmId := id; cw.alarmProps := props |},
           g ++ [AlarmNode {| cw.alarmId := id; cw.alarmProps := props |}])) /\
  (cw.datapointsToAlarm props = 3 -> cw.evaluationPeriods props = 2 ->
     new_Alarm id props g = Throw (tooManyDatapoints id)) /\
  (exists stack graph backendAlarm rdsCpuAlarm,
     new_AwsInfraStack stackId stackProps [] = Ok (stack, graph) /\
     alarms graph = [backendAlarm; rdsCpuAlarm] /\
     cw.alarmId backendAlarm = "BackendHighCpu" /\
     cw.alarmId rdsCpuAlarm = "RdsHighCpu" /\
     cw.datapointsToAlarm (cw.alarmProps backendAlarm) = 2 /\
     cw.evaluationPeriods (cw.alarmProps backendAlarm) = 2 /\
     cw.datapointsToAlarm (cw.alarmProps rdsCpuAlarm) = 2 /\
     cw.evaluationPeriods (cw.alarmProps rdsCpuAlarm) = 2).
Proof.
  assert (Hfail : cw.evaluationPeriods props < cw.datapointsToAlarm props ->
                  new_Alarm id props g = Throw (tooManyDatapoints id)).
  { intros H. unfold new_Alarm. apply Z.ltb_lt in H. rewrite H. reflexivity. }
  split; [|split; [|split]].
  - intros H. split; [exact (Hfail H)|]. rewrite (Hfail H). reflexivity.
  - intros H. unfold new_Alarm. apply Z.ltb_ge in H. rewrite H. reflexivity.
  - intros H3 H2. apply Hfail. lia.
  - eexists; eexists; eexists; eexists. run_constructor. repeat split.
Qed.

Lemma alarm_validation_witness :
  new_Alarm "BackendHighCpu" (exampleAlarmProps 3 2) []
  = Throw (tooManyDatapoints "BackendHighCpu").
Proof.
  apply (proj1 (proj2 (proj2
    (alarm_validation "BackendHighCpu" (exampleAlarmProps 3 2) []
       "AwsInfraStack" {| env := None |}))));
    reflexivity.
Defined.

(** ** Image-pull grants *)

Lemma ManagedPolicy_eqb_refl (p : iam.ManagedPolicy) : iam.ManagedPolicy_eqb p p = true.
Proof. destruct p; simpl. apply String.eqb_refl. Qed.

Lemma isGrant_self (role : LogicalId) (policy : iam.ManagedPolicy) :
  isGrant role policy (GrantNode role policy) = true.
Proof. simpl. rewrite String.eqb_refl, ManagedPolicy_eqb_refl. reflexivity. Qed.

Lemma isRole_self (role : iam.Role) : isRole role (ExecutionRoleNode role) = true.
Proof. simpl. apply String.eqb_refl. Qed.

Lemma grantCount_existsb (role : LogicalId) (policy : iam.ManagedPolicy) (g : Graph) :
  existsb (isGrant role policy) g = false <-> grantCount role policy g = 0%nat.
Proof.
  unfold grantCount. induction g as [|n g IH]; simpl; [tauto|].
  destruct (isGrant role policy n); simpl; [split; discriminate | exact IH].
Qed.

(** What [GrantImagePull] does to the graph: the role if it is new, then the
    grant if it is new. *)
Lemma GrantImagePull_run (taskDefinition : ecs.FargateTaskDefinition) (g : Graph) :
  let role := {| iam.roleId := executionRoleOf taskDefinition |} in
  let g1 := if existsb (isRole role) g then g else g ++ [ExecutionRoleNode role] in
  GrantImagePull taskDefinition g =
    Ok (tt, if existsb (isGrant (iam.roleId role) imagePullPolicy) g
            then g1
            else g1 ++ [GrantNode (iam.roleId role) imagePullPolicy]).
Proof.
  unfold GrantImagePull, obtainExecutionRole, addManagedPolicy, bind, inspect,
    ret, emit, executionRoleOf, imagePullPolicy.
  cbv zeta.
  destruct (existsb (isRole _) g) eqn:Hrole;
    [|rewrite existsb_app; cbn [existsb isGrant]; rewrite !orb_false_r];
    destruct (existsb (isGrant _ _) g) eqn:Hgrant; reflexivity.
Qed.

(** C7: granting image pull to a workload's execution role a second time
    changes nothing: the graph after two grants is the graph after one.  A
    grant always returns; after it the role holds the policy once if it did
    not hold it before, and as often as before otherwise.  In the stack's
    graph each of the two execution roles holds the policy once. *)
Theorem grant_image_pull_idempotent (taskDefinition : ecs.FargateTaskDefinition)
    (g : Graph) (stackId : LogicalId) (stackProps : StackProps) :
  (GrantImagePull taskDefinition ;; GrantImagePull taskDefinition) g
    = GrantImagePull taskDefinition g /\
  (exists g',
     GrantImagePull taskDefinition g = Ok (tt, g') /\
     grantCount (executionRoleOf taskDefinition) imagePullPolicy g'
       = Nat.max 1 (grantCount (executionRoleOf taskDefinition) imagePullPolicy g)) /\
  (exists stack graph,
     new_AwsInfraStack stackId stackProps [] = Ok (stack, graph) /\
     grants graph = [ ("BackendService/TaskDef/ExecutionRole", imagePullPolicy);
                      ("FrontendTaskDef/ExecutionRole", imagePullPolicy) ] /\
     NoDup (grants graph)).
Proof.
  pose (role := {| iam.roleId := executionRoleOf taskDefinition |}).
  pose proof (GrantImagePull_run taskDefinition g) as Hrun. cbv zeta in Hrun.
  fold role in Hrun.
  split; [|split].
  - unfold bind at 1. rewrite Hrun.
    rewrite (GrantImagePull_run taskDefinition _). cbv zeta. fold role.
    f_equal. f_equal.
    destruct (existsb (isRole role) g) eqn:Hrole;
      destruct (existsb (isGrant (iam.roleId role) imagePullPolicy) g) eqn:Hgrant;
      rewrite ?existsb_app, ?Hrole, ?Hgrant; cbn [existsb];
      rewrite ?isRole_self, ?isGrant_self, ?orb_true_r; cbn [orb];
      rewrite ?Hrole, ?Hgrant, ?orb_true_r; reflexivity.
  - eexists. split; [exact Hrun|].
    change (executionRoleOf taskDefinition) with (iam.roleId role).
    destruct (existsb (isGrant (iam.roleId role) imagePullPolicy) g) eqn:Hgrant.
    + assert (Hpos : grantCount (iam.roleId role) imagePullPolicy g <> 0%nat).
      { intros H0. apply grantCount_existsb in H0. congruence. }
      destruct (existsb (isRole role) g); unfold grantCount in *;
        rewrite ?filter_app, ?length_app; cbn [filter isGrant List.length]; lia.
    + apply grantCount_existsb in Hgrant.
      destruct (existsb (isRole role) g); unfold grantCount in *;
        rewrite ?filter_app, ?length_app;
        change (filter (isGrant (iam.roleId role) imagePullPolicy)
                  [GrantNode (iam.roleId role) imagePullPolicy])
          with (if isGrant (iam.roleId role) imagePullPolicy
                     (GrantNode (iam.roleId role) imagePullPolicy)
                then [GrantNode (iam.roleId role) imagePullPolicy] else []);
        rewrite isGrant_self; cbn [filter isGrant List.length]; lia.
  - eexists; eexists. run_constructor.
    split; [reflexivity|].
    repeat constructor; simpl; intuition discriminate.
Qed.

(** ** A network without availability zones *)

(** C8: building a network with fewer than one availability zone throws,
    whatever the graph it is asked in.  A constructor that reaches such a
    network hands on no graph at all: not the network, not what the steps
    before it had added, and nothing of the steps after it.  If the steps
    before it return, the error is the network's. *)
Theorem zero_zones_abort (A B : Type) (id : LogicalId) (props : ec2.VpcProps)
    (before : Build A) (rest : A -> ec2.Vpc -> Build B) (g : Graph) :
  ec2.maxAzs props < 1 ->
  new_Vpc id props g = Throw (noAvailabilityZone id) /\
  emitted (new_Vpc id props g) = None /\
  emitted ((x <- before ;; network <- new_Vpc id props ;; rest x network) g) = None /\
  (forall x g1, before g = Ok (x, g1) ->
     (x <- before ;; network <- new_Vpc id props ;; rest x network) g
       = Throw (noAvailabilityZone id)).
Proof.
  intros Hn.
  assert (Hthrow : forall g0, new_Vpc id props g0 = Throw (noAvailabilityZone id)).
  { intros g0. unfold new_Vpc. apply Z.ltb_lt in Hn. rewrite Hn. reflexivity. }
  split; [apply Hthrow|].
  split; [rewrite Hthrow; reflexivity|].
  split.
  - unfold bind. destruct (before g) as [[x g1]|e]; [|reflexivity].
    rewrite Hthrow. reflexivity.
  - intros x g1 Hbefore. unfold bind. rewrite Hbefore, Hthrow. reflexivity.
Qed.

Lemma zero_zones_abort_witness :
  emitted ((_ <- emit (StackNode "AwsInfraStack" {| env := None |}) ;;
            network <- new_Vpc "AppVpc"
                         {| ec2.maxAzs := 0;
                            ec2.natGateways := 1;
                            ec2.subnetConfiguration :=
                              ec2.subnetConfiguration AppVpcProps |} ;;
            new_Cluster "AppCluster" {| ecs.vpc := network |}) []) = None.
Proof.
  refine (proj1 (proj2 (proj2
    (@zero_zones_abort unit ecs.Cluster "AppVpc"
       {| ec2.maxAzs := 0;
          ec2.natGateways := 1;
          ec2.subnetConfiguration := ec2.subnetConfiguration AppVpcProps |}
       (emit (StackNode "AwsInfraStack" {| env := None |}))
       (fun _ network => new_Cluster "AppCluster" {| ecs.vpc := network |})
       [] _)))).
  simpl. lia.
Defined.

(** ** The backend's read endpoint *)

(** C10: whenever the query of [/api/hello] is rejected with an error, the
    handler answers with status 500 and a JSON object of two fields,
    [error] and [detail], the latter being the error's message; it does not
    answer with the success shape. *)
Theorem hello_database_error (client : backend.Client) (err : backend.Error) :
  client "SELECT NOW()" = backend.Rejected err ->
  backend.apiHello client =
    {| backend.status := 500;
       backend.body :=
         backend.Json (JObject [ ("error", JString "Database error");
                                 ("detail", JString (backend.message err)) ]) |} /\
  backend.status (backend.apiHello client) <> 200.
Proof.
  intros Hq. unfold backend.apiHello, backend.tryHello. rewrite Hq. simpl.
  split; [reflexivity | discriminate].
Qed.

Lemma hello_database_error_witness :
  backend.apiHello failingClient =
    {| backend.status := 500;
       backend.body :=
         backend.Json (JObject [ ("error", JString "Database error");
                                 ("detail", JString "Connection terminated unexpectedly") ]) |}.
Proof.
  exact (proj1 (hello_database_error failingClient eq_refl)).
Defined.

(** ** The entry point *)

(** X1: whenever the entry point gets its stack constructed, the stack is
    named AwsInfraStack, takes the account from CDK_DEFAULT_ACCOUNT as it is,
    and has a region that is not empty: CDK_DEFAULT_REGION if that is set
    and not empty, eu-central-1 otherwise. *)
Theorem entry_point_region (processEnv : ProcessEnv) (stack : AwsInfraStack)
    (graph : Graph) :
  aws_infra processEnv = Ok (stack, graph) ->
  exists region rest,
    graph = StackNode "AwsInfraStack"
              {| env := Some {| account := processEnv "CDK_DEFAULT_ACCOUNT";
                                region := Some region |} |} :: rest /\
    region <> "" /\
    (processEnv "CDK_DEFAULT_REGION" = None \/
     processEnv "CDK_DEFAULT_REGION" = Some "" -> region = "eu-central-1") /\
    (forall s, processEnv "CDK_DEFAULT_REGION" = Some s -> s <> "" -> region = s).
Proof.
  intros Hrun.
  assert (Hhead : exists stack' rest,
            aws_infra processEnv
            = Ok (stack',
                  StackNode "AwsInfraStack"
                    {| env := Some {| account := processEnv "CDK_DEFAULT_ACCOUNT";
                                      region := Some (orElse (processEnv "CDK_DEFAULT_REGION")
                                                        "eu-central-1") |} |} :: rest)).
  { unfold aws_infra. eexists; eexists. vm_compute. reflexivity. }
  destruct Hhead as (stack' & rest & Hhead).
  rewrite Hhead in Hrun. injection Hrun as _ <-.
  exists (orElse (processEnv "CDK_DEFAULT_REGION") "eu-central-1"), rest.
  split; [reflexivity|].
  destruct (processEnv "CDK_DEFAULT_REGION") as [[|c s]|]; simpl.
  - split; [discriminate|]. split; [reflexivity|]. intros s Hs Hne. congruence.
  - split; [discriminate|]. split; [intros [H|H]; discriminate|].
    intros s' Hs _. congruence.
  - split; [discriminate|]. split; [reflexivity|]. intros s Hs; discriminate.
Qed.

Lemma entry_point_region_witness :
  exists stack graph rest,
    aws_infra deployEnv = Ok (stack, graph) /\
    graph = StackNode "AwsInfraStack"
              {| env := Some {| account := Some "123456789012";
                                region := Some "eu-central-1" |} |} :: rest.
Proof.
  destruct (aws_infra deployEnv) as [[stack graph]|e] eqn:Hrun;
    [|vm_compute in Hrun; discriminate].
  destruct (@entry_point_region deployEnv stack graph Hrun) as (region & rest & Hg & _ & Hdefault & _).
  exists stack, graph, rest. split; [reflexivity|].
  rewrite Hg, (Hdefault (or_introl eq_refl)). reflexivity.
Defined.

(** ** The read endpoint, all outcomes *)

(** X2: the read endpoint answers 200 exactly when the query resolves with at
    least one row, and 500 in every other case: a rejected query, or a
    result without rows. *)
Theorem hello_status (client : backend.Client) :
  (backend.status (backend.apiHello client) = 200 <->
   exists result row more,
     client "SELECT NOW()" = backend.Resolved result /\
     backend.rows result = row :: more) /\
  (backend.status (backend.apiHello client) = 500 <->
   (exists err, client "SELECT NOW()" = backend.Rejected err) \/
   (exists result, client "SELECT NOW()" = backend.Resolved result /\
                   backend.rows result = [])).
Proof.
  unfold backend.apiHello, backend.tryHello.
  destruct (client "SELECT NOW()") as [result|err] eqn:Hq.
  - destruct (backend.rows result) as [|row more] eqn:Hr; simpl; split; split.
    + discriminate.
    + intros (r & row & more & Hres & Hrows). inversion Hres; subst. congruence.
    + intros _. right. exists result. split; [reflexivity | assumption].
    + reflexivity.
    + intros _. exists result, row, more. split; [reflexivity | assumption].
    + reflexivity.
    + discriminate.
    + intros [[err Herr] | (r & Hres & Hrows)]; [discriminate|].
      inversion Hres; subst. congruence.
  - simpl; split; split.
    + discriminate.
    + intros (r & row & more & Hres & _). discriminate.
    + intros _. left. exists err. reflexivity.
    + reflexivity.
Qed.

(** X3: when the query resolves with at least one row, the answer is 200 with
    the fixed message and, as [time], the [now] column of the first row; the
    other rows are not looked at, and a first row without a [now] column
    gives a body with the message only. *)
Theorem hello_success_body (client : backend.Client) (result : backend.QueryResult)
    (row : backend.Row) (more : list backend.Row) :
  client "SELECT NOW()" = backend.Resolved result ->
  backend.rows result = row :: more ->
  backend.apiHello client =
    {| backend.status := 200;
       backend.body :=
         backend.Json
           (JObject (("message", JString "Hello from backend (Node.js)")
                     :: match backend.property "now" row with
                        | Some v => [("time", v)]
                        | None => []
                        end)) |}.
Proof.
  intros Hq Hr. unfold backend.apiHello, backend.tryHello. rewrite Hq, Hr.
  unfold backend.objectLiteral. simpl.
  destruct (backend.property "now" row); reflexivity.
Qed.

Lemma hello_success_body_witness :
  backend.apiHello answeringClient =
    {| backend.status := 200;
       backend.body :=
         backend.Json
           (JObject [ ("message", JString "Hello from backend (Node.js)");
                      ("time", JString "2025-01-01T00:00:00.000Z") ]) |}.
Proof.
  exact (hello_success_body answeringClient eq_refl eq_refl).
Defined.

(** X4: an answer of the read endpoint that is not a 200 always has the
    failure shape: status 500 and a JSON object with exactly the fields
    [error], which is 'Database error', and [detail], a string.  This
    includes the query that resolves without rows. *)
Theorem hello_failure_shape (client : backend.Client) :
  backend.status (backend.apiHello client) <> 200 ->
  exists detail,
    backend.apiHello client =
      {| backend.status := 500;
         backend.body :=
           backend.Json (JObject [ ("error", JString "Database error");
                                   ("detail", JString detail) ]) |}.
Proof.
  unfold backend.apiHello, backend.tryHello.
  destruct (client "SELECT NOW()") as [result|err].
  - destruct (backend.rows result) as [|row more]; simpl.
    + intros _. eexists. reflexivity.
    + intros H. exfalso. apply H. reflexivity.
  - intros _. eexists. reflexivity.
Qed.

Lemma hello_failure_shape_witness :
  exists detail,
    backend.apiHello emptyClient =
      {| backend.status := 500;
         backend.body :=
           backend.Json (JObject [ ("error", JString "Database error");
                                   ("detail", JString detail) ]) |}.
Proof.
  apply (hello_failure_shape emptyClient). simpl. discriminate.
Defined.

(** ** References between the nodes of the stack *)

Lemma resolved_sound (g : Graph) :
  resolved g = true ->
  forall n d, In n g -> In d (dependsOn n) ->
    exists m, In m g /\ In d (defined m).
Proof.
  unfold resolved. intros Hres n d Hn Hd.
  rewrite forallb_forall in Hres. specialize (Hres n Hn).
  rewrite forallb_forall in Hres. specialize (Hres d Hd).
  apply existsb_exists in Hres as (x & Hx & Heq).
  apply String.eqb_eq in Heq. subst x.
  apply in_flat_map in Hx. exact Hx.
Qed.

Lemma distinct_sound (l : list string) : distinct l = true -> NoDup l.
Proof.
  induction l as [|x rest IH]; simpl; intros H; constructor.
  - apply andb_prop in H as [Hx _]. intros Hin.
    assert (Hex : existsb (String.eqb x) rest = true).
    { apply existsb_exists. exists x. split; [exact Hin | apply String.eqb_refl]. }
    rewrite Hex in Hx. discriminate.
  - apply andb_prop in H as [_ Hrest]. exact (IH Hrest).
Qed.

(** X5: in the stack's graph no reference dangles: whatever construct a
    node names (its network, secret, cluster, task definition, log group,
    security group, role, load balancer, the service a load balancer
    targets, an alarm, or the ARN of a load balancer, firewall policy or
    topic) is introduced by a node of the graph. *)
Theorem references_resolve (id : LogicalId) (props : StackProps) :
  exists stack graph,
    new_AwsInfraStack id props [] = Ok (stack, graph) /\
    forall n d,
      In n graph ->
      In d (dependsOn n) ->
      exists m, In m graph /\ In d (defined m).
Proof.
  eexists; eexists. run_constructor.
  apply resolved_sound. vm_compute. reflexivity.
Qed.

(** X6: the logical ids and attribute names the stack's constructs introduce
    are pairwise distinct, and the graph has 1 network with 4 subnets, 1
    credential, 1 data store, 2 workloads, 2 containers, 1 entry point, 1
    firewall policy with 1 binding, 2 image-pull grants, 1 notification
    target and 2 alarms. *)
Theorem stack_inventory (id : LogicalId) (props : StackProps) :
  exists stack graph,
    new_AwsInfraStack id props [] = Ok (stack, graph) /\
    NoDup (flat_map defined graph) /\
    List.length (networks graph) = 1%nat /\
    List.length (subdivisions graph) = 4%nat /\
    List.length (credentials graph) = 1%nat /\
    List.length (dataStores graph) = 1%nat /\
    List.length (workloads graph) = 2%nat /\
    List.length (containers graph) = 2%nat /\
    List.length (entryPoints graph) = 1%nat /\
    List.length (firewallPolicies graph) = 1%nat /\
    List.length (firewallBindings graph) = 1%nat /\
    List.length (grants graph) = 2%nat /\
    List.length (notificationTargets graph) = 1%nat /\
    List.length (alarms graph) = 2%nat.
Proof.
  eexists; eexists. run_constructor.
  split; [apply distinct_sound; vm_compute; reflexivity|].
  repeat split.
Qed.

(** X7: the stack's two alarms are wired to one notification target: each
    alarm has exactly one action, and both actions are the ARN of the single
    topic, which has one subscriber, by email.  The alarms watch the CPU
    utilization of the backend service and of the database, each over one
    minute, against the same threshold of 70 with the same comparison. *)
Theorem alarms_share_one_target (id : LogicalId) (props : StackProps) :
  exists stack graph topic backend,
    new_AwsInfraStack id props [] = Ok (stack, graph) /\
    notificationTargets graph = [topic] /\
    In backend (workloads graph) /\
    ecs.serviceEntryPoint backend <> None /\
    subscriptions graph =
      [(sns.topicId topic, subs.EmailSubscription "serhii.slavita@icloud.com")] /\
    alarmActions graph = map (fun a => (cw.alarmId a, sns.topicArn topic)) (alarms graph) /\
    NoDup (map cw.alarmId (alarms graph)) /\
    map (fun a => cw.metricSource (cw.metric (cw.alarmProps a))) (alarms graph)
      = [ecs.serviceId backend; rds.instanceId (database stack)] /\
    (forall a, In a (alarms graph) ->
       cw.metricName (cw.metric (cw.alarmProps a)) = "CPUUtilization" /\
       cw.metricPeriod (cw.metric (cw.alarmProps a)) = minutes 1 /\
       cw.threshold (cw.alarmProps a) = 70 /\
       cw.comparisonOperator (cw.alarmProps a) = cw.GREATER_THAN_THRESHOLD).
Proof.
  eexists; eexists; eexists; eexists. run_constructor.
  split; [reflexivity|].
  split; [in_list|].
  split; [discriminate|].
  do 2 (split; [reflexivity|]).
  split; [apply distinct_sound; reflexivity|].
  split; [reflexivity|].
  intros a Ha. vm_compute in Ha.
  destruct Ha as [<-|[<-|[]]]; repeat split.
Qed.

(** ** The backend's configuration and the task definition *)

(** X8: the database configuration of the backend depends on five variables
    of the environment and on nothing else in it.  Its port is parsed in
    radix 10 from DB_PORT, or from '5432' when DB_PORT is unset or empty, and
    certificate verification is always off. *)
Theorem dbConfig_reads (Number : Type) (parseInt : string -> Z -> Number)
    (env1 env2 : ProcessEnv) :
  (forall key, In key backendProcess.dbConfigKeys -> env1 key = env2 key) ->
  backendProcess.dbConfig parseInt env1 = backendProcess.dbConfig parseInt env2 /\
  backendProcess.rejectUnauthorized
    (backendProcess.ssl (backendProcess.dbConfig parseInt env1)) = false /\
  (env1 "DB_PORT" = None \/ env1 "DB_PORT" = Some "" ->
     backendProcess.port (backendProcess.dbConfig parseInt env1) = parseInt "5432" 10) /\
  (forall s, env1 "DB_PORT" = Some s -> s <> "" ->
     backendProcess.port (backendProcess.dbConfig parseInt env1) = parseInt s 10).
Proof.
  intros Hsame.
  assert (Hkey : forall key, In key backendProcess.dbConfigKeys -> env1 key = env2 key)
    by exact Hsame.
  split; [|split; [reflexivity | split]].
  - unfold backendProcess.dbConfig.
    rewrite (Hkey "DB_USER"), (Hkey "DB_HOST"), (Hkey "DB_NAME"),
      (Hkey "DB_PASSWORD"), (Hkey "DB_PORT"); try reflexivity; in_list.
  - simpl. intros [H|H]; rewrite H; reflexivity.
  - simpl. intros s Hs Hne. rewrite Hs. destruct s; [congruence | reflexivity].
Qed.

Lemma dbConfig_reads_witness :
  backendProcess.dbConfig (fun s _ => s) (exampleEnv None)
  = backendProcess.dbConfig (fun s _ => s) (exampleEnv (Some "x")).
Proof.
  refine (proj1 (@dbConfig_reads string (fun s _ => s)
                   (exampleEnv None) (exampleEnv (Some "x")) _)).
  intros key Hkey. simpl in Hkey.
  destruct Hkey as [<-|[<-|[<-|[<-|[<-|[]]]]]]; reflexivity.
Defined.

(** X9: the backend container of the stack is given exactly the five
    variables the backend's database configuration reads, each once, as a
    plain value or as a secret; DB_NAME is the name of the database the
    instance is created with.  It is not given PORT, so the backend listens
    on its default, 3000, which is the container's port and the port the
    load balancer targets. *)
Theorem backend_variables_bound (id : LogicalId) (props : StackProps) :
  exists stack graph container lb,
    new_AwsInfraStack id props [] = Ok (stack, graph) /\
    In container (containers graph) /\
    entryPoints graph = [lb] /\
    ecs.containerTaskDefinition container = "BackendService/TaskDef" /\
    (forall key, In key (boundKeys container) <-> In key backendProcess.dbConfigKeys) /\
    NoDup (boundKeys container) /\
    plainBinding "DB_NAME" (ecs.containerEnvironment container)
      = Some (rds.databaseName (rds.instanceProps (database stack))) /\
    ~ In "PORT" (boundKeys container) /\
    ecs.containerPort container = Some (elbv2.targetPort lb) /\
    (forall processEnv, processEnv "PORT" = None ->
       backendProcess.PORT processEnv = backendProcess.PortNumber (elbv2.targetPort lb)).
Proof.
  eexists; eexists; eexists; eexists. run_constructor.
  split; [in_list|].
  do 2 (split; [reflexivity|]).
  split.
  { intros key. simpl. intuition. }
  split; [apply distinct_sound; reflexivity|].
  split; [reflexivity|].
  split.
  { simpl. intuition discriminate. }
  split; [reflexivity|].
  intros processEnv Hport. unfold backendProcess.PORT. rewrite Hport. reflexivity.
Qed.
